(** * Recommendation backend: enrichment, exclusion and reranking pipeline

    A shallow embedding of the pure parts of the backend services
    ([memory_service], [query_parser_service], [qdrant_service],
    [langchain_service], [response_templates]) together with the properties
    they are specified to have.

    Python [str] values are sequences of Unicode code points.  The Unicode
    character database is not part of the repository: its behaviour outside
    ASCII is a parameter ([unicode_db]) of every definition that lower-cases
    text or classifies characters. *)

From Stdlib Require Import ZArith NArith QArith Lqa List String Ascii Bool Lia.
From Stdlib Require Import Sorting.Sorted Sorting.Permutation.
From stdpp Require Import base option list gmap sets.

Set Default Proof Using "Type".
Open Scope Z_scope.

(* ===================================================================== *)
(** * Part I: the model *)
(* ===================================================================== *)

(** ** Exceptions *)

Inductive exn : Type :=
| KeyError
| TypeError
| AttributeError
| IndexError
| ValueError
| JSONDecodeError
| ServiceError.

Inductive res (A : Type) : Type :=
| Ok (a : A)
| Raise (e : exn).
Arguments Ok {A} a.
Arguments Raise {A} e.

Definition res_bind {A B : Type} (x : res A) (f : A → res B) : res B :=
  match x with
  | Ok a => f a
  | Raise e => Raise e
  end.

Declare Scope res_scope.
Delimit Scope res_scope with res.
Notation "'let*' x ':=' c 'in' k" := (res_bind c (fun x => k))
  (at level 10, x name, c at level 100, k at level 200) : res_scope.

(** [try: body except Exception: handler] *)
Definition try_except {A : Type} (body : res A) (handler : exn → res A) : res A :=
  match body with
  | Ok a => Ok a
  | Raise e => handler e
  end.

(** ** Python strings *)

Module PyStr.

(** A [str] is a sequence of code points. *)
Definition pystr : Type := list N.

Fixpoint bytes_of (s : string) : list N :=
  match s with
  | EmptyString => []
  | String a s' => N_of_ascii a :: bytes_of s'
  end.

(** The source files are UTF-8: a literal is read by decoding its bytes. *)
Fixpoint utf8_decode (bs : list N) : pystr :=
  match bs with
  | [] => []
  | b0 :: t0 =>
      if (b0 <? 128)%N then b0 :: utf8_decode t0
      else
        match t0 with
        | [] => []
        | b1 :: t1 =>
            if (b0 <? 224)%N
            then ((b0 - 192) * 64 + (b1 - 128))%N :: utf8_decode t1
            else
              match t1 with
              | [] => []
              | b2 :: t2 =>
                  if (b0 <? 240)%N
                  then ((b0 - 224) * 4096 + (b1 - 128) * 64 + (b2 - 128))%N
                         :: utf8_decode t2
                  else
                    match t2 with
                    | [] => []
                    | b3 :: t3 =>
                        ((b0 - 240) * 262144 + (b1 - 128) * 4096
                         + (b2 - 128) * 64 + (b3 - 128))%N :: utf8_decode t3
                    end
              end
        end
  end.

Definition lit (s : string) : pystr := utf8_decode (bytes_of s).

Definition LF : N := 10%N.

(** What Python takes from the Unicode character database for code
    points outside ASCII. *)
Record unicode_db : Type := {
  (** [str.lower] of a string that has a non-ASCII code point *)
  u_lower : pystr → pystr;
  (** [str.isalnum] of a non-ASCII code point (the [\w] class) *)
  u_alnum : N → bool;
  (** [str.isspace] of a non-ASCII code point (the [\s] class, [strip], [split]) *)
  u_space : N → bool;
  (** decimal value of a non-ASCII decimal digit (the [\d] class, [int]) *)
  u_decimal : N → option N
}.

(** The database cut down to ASCII: every other code point is caseless
    and is neither a letter, a digit nor white space.  It agrees with the
    real one on ASCII text. *)
Definition ascii_db : unicode_db :=
  {| u_lower := fun s => s;
     u_alnum := fun _ => false;
     u_space := fun _ => false;
     u_decimal := fun _ => None |}.

Definition is_ascii (c : N) : bool := (c <? 128)%N.

Definition is_upper (c : N) : bool := ((65 <=? c) && (c <=? 90))%N.

Definition ascii_lower (c : N) : N :=
  if is_upper c then (c + 32)%N else c.

Definition ascii_space (c : N) : bool :=
  (((9 <=? c) && (c <=? 13)) || ((28 <=? c) && (c <=? 32)))%N.

Definition ascii_digit (c : N) : bool := ((48 <=? c) && (c <=? 57))%N.

Definition ascii_alnum (c : N) : bool :=
  (ascii_digit c || ((65 <=? c) && (c <=? 90)) || ((97 <=? c) && (c <=? 122)))%N.

Section WithUnicode.
Context (U : unicode_db).

(** [s.lower()] *)
Definition lower (s : pystr) : pystr :=
  if forallb is_ascii s then map ascii_lower s else u_lower U s.

(** [c.isspace()] *)
Definition isspace (c : N) : bool :=
  if is_ascii c then ascii_space c else u_space U c.

(** the [\w] class of [re] on [str] patterns *)
Definition isword (c : N) : bool :=
  if is_ascii c then ascii_alnum c || (c =? 95)%N else u_alnum U c.

(** decimal value of a digit, [None] if the code point is not one *)
Definition decimal (c : N) : option N :=
  if is_ascii c then (if ascii_digit c then Some (c - 48)%N else None)
  else u_decimal U c.

Definition isdigit (c : N) : bool :=
  match decimal c with Some _ => true | None => false end.

(** [s.lstrip()], [s.rstrip()], [s.strip()] *)
Fixpoint lstrip (s : pystr) : pystr :=
  match s with
  | [] => []
  | c :: s' => if isspace c then lstrip s' else s
  end.

Definition rstrip (s : pystr) : pystr := rev (lstrip (rev s)).

Definition strip (s : pystr) : pystr := rstrip (lstrip s).

(** [s.split()]: split on runs of white space, no empty tokens.
    [cur] is the token being read, reversed. *)
Fixpoint split_ws_from (cur : pystr) (s : pystr) : list pystr :=
  match s with
  | [] => match cur with [] => [] | _ => [rev cur] end
  | c :: s' =>
      if isspace c
      then match cur with
           | [] => split_ws_from [] s'
           | _ => rev cur :: split_ws_from [] s'
           end
      else split_ws_from (c :: cur) s'
  end.

Definition split_ws (s : pystr) : list pystr := split_ws_from [] s.

(** The value of a string of decimal digits (as captured by [\d+]) *)
Definition int_digits (s : pystr) : Z :=
  fold_left (fun acc c => acc * 10 + Z.of_N (default 0%N (decimal c))) s 0.

(** [sys.int_info.default_max_str_digits] *)
Definition max_str_digits : nat := 4300.

(** [int(s)] for a string of decimal digits (as captured by [\d+]).
    CPython refuses a string of more than [max_str_digits] digits,
    leading zeros counted, with [ValueError: Exceeds the limit (4300 digits)
    for integer string conversion]. *)
Definition int (s : pystr) : res Z :=
  if (max_str_digits <? length s)%nat then Raise ValueError
  else Ok (int_digits s).
End WithUnicode.

(** [s.startswith(p)] *)
Fixpoint startswith (s p : pystr) {struct p} : bool :=
  match p, s with
  | [], _ => true
  | _ :: _, [] => false
  | a :: p', b :: s' => (a =? b)%N && startswith s' p'
  end.

(** [p in s] *)
Fixpoint str_in (p s : pystr) : bool :=
  startswith s p ||
  match s with
  | [] => false
  | _ :: s' => str_in p s'
  end.

(** [any(k in s for k in ks)] *)
Definition any_in (ks : list pystr) (s : pystr) : bool :=
  existsb (fun k => str_in k s) ks.

(** [s.split(sep)] for a one-character separator.
    [cur] is the field being read, reversed. *)
Fixpoint split_char_from (sep : N) (cur : pystr) (s : pystr) : list pystr :=
  match s with
  | [] => [rev cur]
  | c :: s' =>
      if (c =? sep)%N
      then rev cur :: split_char_from sep [] s'
      else split_char_from sep (c :: cur) s'
  end.

Definition split_char (sep : N) (s : pystr) : list pystr :=
  split_char_from sep [] s.

(** [sep.join(parts)] *)
Fixpoint join (sep : pystr) (parts : list pystr) : pystr :=
  match parts with
  | [] => []
  | [p] => p
  | p :: ps => p ++ sep ++ join sep ps
  end.

(** [str(n)] for a non-negative integer; [fuel] bounds the number of digits *)
Fixpoint digits_of (fuel : nat) (n : N) (acc : pystr) : pystr :=
  match fuel with
  | O => acc
  | S fuel' =>
      let acc' := (48 + n mod 10)%N :: acc in
      if (n <? 10)%N then acc' else digits_of fuel' (n / 10)%N acc'
  end.

Definition str_of_N (n : N) : pystr := digits_of (S (N.to_nat (N.log2 n))) n [].

Definition str_of_Z (z : Z) : pystr :=
  if z <? 0 then 45%N :: str_of_N (Z.to_N (- z)) else str_of_N (Z.to_N z).

(** Python's slice [l[i:]] *)
Definition slice_from {A : Type} (i : Z) (l : list A) : list A :=
  let len := Z.of_nat (length l) in
  let start := if i <? 0 then Z.max (len + i) 0 else Z.min i len in
  drop (Z.to_nat start) l.

(** The last [n] elements of [l] (all of [l] when it is shorter). *)
Definition newest (n : nat) {A : Type} (l : list A) : list A :=
  drop (length l - n) l.

(** Python's slice [l[:j]] *)
Definition slice_to {A : Type} (j : Z) (l : list A) : list A :=
  let len := Z.of_nat (length l) in
  let stop := if j <? 0 then Z.max (len + j) 0 else Z.min j len in
  take (Z.to_nat stop) l.

End PyStr.
Import PyStr.

(** ** services/memory_service.py *)

Module MemoryService.

Definition turn : Type := pystr * pystr.

(** [class ConversationMemory] *)
Record ConversationMemory : Type := {
  conversations : gmap pystr (list turn);
  max_history : Z
}.

(** [__init__(self, max_history=10)] *)
Definition init (max_history : Z) : ConversationMemory :=
  {| conversations := ∅; max_history := max_history |}.

(** [d[k]] *)
Definition getitem (d : gmap pystr (list turn)) (k : pystr) : res (list turn) :=
  match d !! k with
  | Some v => Ok v
  | None => Raise KeyError
  end.

(** [del d[k]] *)
Definition delitem (d : gmap pystr (list turn)) (k : pystr)
  : res (gmap pystr (list turn)) :=
  match d !! k with
  | Some _ => Ok (delete k d)
  | None => Raise KeyError
  end.

(** [add_message(self, session_id, question, answer)] *)
Definition add_message (session_id question answer : pystr) (self : ConversationMemory)
  : res ConversationMemory :=
  (let c0 := conversations self in
   let c1 := match c0 !! session_id with
             | None => <[session_id := []]> c0
             | Some _ => c0
             end in
   let* l1 := getitem c1 session_id in
   let c2 := <[session_id := l1 ++ [(question, answer)]]> c1 in
   let* l2 := getitem c2 session_id in
   let* c3 :=
     if Z.of_nat (length l2) >? max_history self
     then let* l3 := getitem c2 session_id in
          Ok (<[session_id := slice_from (- max_history self) l3]> c2)
     else Ok c2 in
   Ok {| conversations := c3; max_history := max_history self |})%res.

(** [get_history(self, session_id)]: the result and the store afterwards *)
Definition get_history (session_id : pystr) (self : ConversationMemory)
  : res (list turn * ConversationMemory) :=
  Ok (default [] (conversations self !! session_id), self).

(** [clear_session(self, session_id)] *)
Definition clear_session (session_id : pystr) (self : ConversationMemory)
  : res ConversationMemory :=
  (match conversations self !! session_id with
   | Some _ =>
       let* c := delitem (conversations self) session_id in
       Ok {| conversations := c; max_history := max_history self |}
   | None => Ok self
   end)%res.

(** [format_history_for_prompt(self, session_id)] *)
Definition format_history_for_prompt (session_id : pystr) (self : ConversationMemory)
  : res (pystr * ConversationMemory) :=
  (let* r := get_history session_id self in
   let history := fst r in
   let self1 := snd r in
   match history with
   | [] => Ok ([], self1)
   | _ =>
       let formatted :=
         fold_left
           (fun acc '(q, a) =>
              acc ++ lit (String "010" "User: ") ++ q
                  ++ lit (String "010" "Assistant: ") ++ a ++ [LF])
           (slice_from (-5) history)
           ([LF; LF] ++ lit "**Previous Conversation:**" ++ [LF]) in
       Ok (formatted, self1)
   end)%res.

(** [get_memory_service()]: the process-wide instance *)
Definition get_memory_service : ConversationMemory := init 10.

(** The calls a handler can make on the store. *)
Inductive call : Type :=
| AddMessage (session_id question answer : pystr)
| GetHistory (session_id : pystr)
| ClearSession (session_id : pystr)
| FormatHistoryForPrompt (session_id : pystr).

Definition step (c : call) (self : ConversationMemory) : res ConversationMemory :=
  (match c with
   | AddMessage s q a => add_message s q a self
   | GetHistory s => let* r := get_history s self in Ok (snd r)
   | ClearSession s => clear_session s self
   | FormatHistoryForPrompt s =>
       let* r := format_history_for_prompt s self in Ok (snd r)
   end)%res.

(** A sequence of [add_message] calls, first call first. *)
Fixpoint add_messages (msgs : list (pystr * pystr * pystr)) (self : ConversationMemory)
  : res ConversationMemory :=
  match msgs with
  | [] => Ok self
  | (s, q, a) :: rest => res_bind (add_message s q a self) (add_messages rest)
  end.

(** The turns sent to session [sid], in the order they were sent. *)
Definition turns_of (sid : pystr) (msgs : list (pystr * pystr * pystr)) : list turn :=
  omap (fun '(s, q, a) => if decide (s = sid) then Some (q, a) else None) msgs.

End MemoryService.

(** ** The subset of Python's [re] the services use *)

Module Re.

(** An item of a bracket expression. *)
Inductive cls : Type :=
| CChar (c : N)
| CRange (lo hi : N)
| CDigit
| CSpace.

(** Patterns.  [Star], [Plus] and [Opt] carry their greediness
    ([true] for [*], [+], [?]; [false] for [*?], [+?], [??]). *)
Inductive regex : Type :=
| Str (s : pystr)
| Dot
| Set_ (negated : bool) (items : list cls)
| Seq (r1 r2 : regex)
| Alt (r1 r2 : regex)
| Star (greedy : bool) (r : regex)
| Plus (greedy : bool) (r : regex)
| Opt (greedy : bool) (r : regex)
| Group (n : nat) (r : regex)
| WordBoundary
| EndOfString.

(** A match object. *)
Record match_ : Type := {
  m_before : pystr;              (** text skipped before the match *)
  m_text : pystr;                (** [group(0)] *)
  m_after : pystr;               (** text after the match *)
  m_last : option N;             (** the code point just before [m_after] *)
  m_groups : list (nat * pystr)  (** groups that took part, latest first *)
}.

Fixpoint assoc (n : nat) (gs : list (nat * pystr)) : option pystr :=
  match gs with
  | [] => None
  | (k, v) :: gs' => if (k =? n)%nat then Some v else assoc n gs'
  end.

(** [m.group(n)]; [None] when the group did not take part *)
Definition group (n : nat) (m : match_) : option pystr :=
  match n with
  | O => Some (m_text m)
  | _ => assoc n (m_groups m)
  end.

Section WithUnicode.
Context (U : unicode_db).

Definition cls_has (c : N) (i : cls) : bool :=
  match i with
  | CChar d => (c =? d)%N
  | CRange lo hi => ((lo <=? c) && (c <=? hi))%N
  | CDigit => isdigit U c
  | CSpace => isspace U c
  end.

Definition set_has (negated : bool) (items : list cls) (c : N) : bool :=
  xorb negated (existsb (cls_has c) items).

Definition opt_word (c : option N) : bool :=
  match c with
  | Some x => isword U x
  | None => false
  end.

(** The backtracking matcher, in continuation-passing style: [k] is
    what remains to be matched, [prev] the code point before the
    current position, [s] the text from the current position on.
    Alternatives are tried in the order of Python's engine. *)
Fixpoint run {R : Type} (r : regex) (prev : option N) (s : pystr)
         (gs : list (nat * pystr))
         (k : option N → pystr → list (nat * pystr) → option R) : option R :=
  match r with
  | Str p =>
      if startswith s p
      then k (match last p with Some c => Some c | None => prev end)
             (drop (length p) s) gs
      else None
  | Dot =>
      match s with
      | c :: s' => if (c =? LF)%N then None else k (Some c) s' gs
      | [] => None
      end
  | Set_ negated items =>
      match s with
      | c :: s' => if set_has negated items c then k (Some c) s' gs else None
      | [] => None
      end
  | Seq r1 r2 =>
      run r1 prev s gs (fun prev' s' gs' => run r2 prev' s' gs' k)
  | Alt r1 r2 =>
      match run r1 prev s gs k with
      | Some x => Some x
      | None => run r2 prev s gs k
      end
  | Star greedy r1 =>
      (fix loop (fuel : nat) (prev : option N) (s : pystr)
           (gs : list (nat * pystr)) {struct fuel} : option R :=
         let again (_ : unit) :=
           match fuel with
           | O => None
           | S fuel' =>
               run r1 prev s gs
                 (fun prev' s' gs' =>
                    if (length s' <? length s)%nat
                    then loop fuel' prev' s' gs'
                    else None)
           end in
         if greedy
         then match again () with
              | Some x => Some x
              | None => k prev s gs
              end
         else match k prev s gs with
              | Some x => Some x
              | None => again ()
              end) (length s) prev s gs
  | Plus greedy r1 =>
      run r1 prev s gs
        (fun prev0 s0 gs0 =>
           (fix loop (fuel : nat) (prev : option N) (s : pystr)
                (gs : list (nat * pystr)) {struct fuel} : option R :=
              let again (_ : unit) :=
                match fuel with
                | O => None
                | S fuel' =>
                    run r1 prev s gs
                      (fun prev' s' gs' =>
                         if (length s' <? length s)%nat
                         then loop fuel' prev' s' gs'
                         else None)
                end in
              if greedy
              then match again () with
                   | Some x => Some x
                   | None => k prev s gs
                   end
              else match k prev s gs with
                   | Some x => Some x
                   | None => again ()
                   end) (length s0) prev0 s0 gs0)
  | Opt greedy r1 =>
      if greedy
      then match run r1 prev s gs k with
           | Some x => Some x
           | None => k prev s gs
           end
      else match k prev s gs with
           | Some x => Some x
           | None => run r1 prev s gs k
           end
  | Group n r1 =>
      run r1 prev s gs
        (fun prev' s' gs' =>
           k prev' s' ((n, take (length s - length s') s) :: gs'))
  | WordBoundary =>
      if xorb (opt_word prev) (opt_word (head s)) then k prev s gs else None
  | EndOfString =>
      match s with
      | [] => k prev s gs
      | [c] => if (c =? LF)%N then k prev s gs else None
      | _ => None
      end
  end.

(** A match that starts exactly at the current position. *)
Definition match_here (r : regex) (before : pystr) (prev : option N) (s : pystr)
  : option match_ :=
  run r prev s []
    (fun prev' s' gs' =>
       Some {| m_before := before;
               m_text := take (length s - length s') s;
               m_after := s';
               m_last := prev';
               m_groups := gs' |}).

(** The leftmost match at or after the current position;
    [skipped] is the text passed over so far, reversed. *)
Fixpoint search_from (r : regex) (skipped : pystr) (prev : option N) (s : pystr)
  : option match_ :=
  match match_here r (rev skipped) prev s with
  | Some m => Some m
  | None =>
      match s with
      | [] => None
      | c :: s' => search_from r (c :: skipped) (Some c) s'
      end
  end.

(** [re.search(r, s)] *)
Definition search (r : regex) (s : pystr) : option match_ :=
  search_from r [] None s.

(** The successive non-overlapping matches, left to right; after an
    empty match the search moves on by one code point, which then
    belongs to the text before the next match. *)
Fixpoint finditer_from (fuel : nat) (r : regex) (skipped : pystr)
         (prev : option N) (s : pystr) : list match_ :=
  match fuel with
  | O => []
  | S fuel' =>
      match search_from r skipped prev s with
      | None => []
      | Some m =>
          m :: match m_text m, m_after m with
               | [], [] => []
               | [], c :: s' => finditer_from fuel' r [c] (Some c) s'
               | _ :: _, s' => finditer_from fuel' r [] (m_last m) s'
               end
      end
  end.

Definition finditer (r : regex) (s : pystr) : list match_ :=
  finditer_from (S (length s)) r [] None s.

(** [re.findall(r, s)] for a pattern with exactly one group: the text
    of group 1 of every match, empty when the group took no part. *)
Definition findall1 (r : regex) (s : pystr) : list pystr :=
  map (fun m => default [] (group 1 m)) (finditer r s).

(** [re.sub(r, '', s)] *)
Definition sub_empty (r : regex) (s : pystr) : pystr :=
  match finditer r s with
  | [] => s
  | ms => concat (map m_before ms) ++ default [] (m_after <$> last ms)
  end.
End WithUnicode.

(** Building blocks for writing patterns down. *)
Definition s_ (x : string) : regex := Str (lit x).
Fixpoint alts (rs : list regex) : regex :=
  match rs with
  | [] => Set_ false []
  | [r] => r
  | r :: rs' => Alt r (alts rs')
  end.
Fixpoint seqs (rs : list regex) : regex :=
  match rs with
  | [] => Str []
  | [r] => r
  | r :: rs' => Seq r (seqs rs')
  end.
Definition words (xs : list string) : regex := alts (map s_ xs).
Definition space : regex := Set_ false [CSpace].
Definition digit : regex := Set_ false [CDigit].
Definition b_ : regex := WordBoundary.
Fixpoint times (n : nat) (r : regex) : regex :=
  match n with
  | O => Str []
  | 1%nat => r
  | S n' => Seq r (times n' r)
  end.

End Re.

(** ** services/query_parser_service.py *)

Module QueryParserService.
Import Re.

(** [self.movie_keywords] *)
Definition movie_keywords : list pystr :=
  map lit
    [ "movie"; "movies"; "film"; "films"; "tv show"; "tv shows";
      "series"; "show"; "shows"; "netflix"; "watch"; "watching";
      "recommend"; "recommendation"; "suggest"; "suggestion"; "actor";
      "actress"; "director"; "cast"; "genre"; "rating"; "action";
      "comedy"; "drama"; "thriller"; "horror"; "romance";
      "documentary"; "animation"; "sci-fi"; "fantasy"; "crime";
      "mystery"; "adventure"; "family"; "western"; "war"; "phim";
      "phim ảnh"; "xem phim"; "bộ phim"; "diễn viên"; "đạo diễn";
      "hành động"; "kinh dị"; "tình cảm"; "hài"; "anime"; "cartoon";
      "season"; "episode"; "streaming"; "blockbuster"; "oscar"; "imdb";
      "released"; "premiere"; "year"; "năm" ]%string.

(** [self.non_movie_keywords] *)
Definition non_movie_keywords : list pystr :=
  map lit
    [ "weather"; "temperature"; "forecast"; "rain"; "sunny";
      "thời tiết"; "nhiệt độ"; "trời"; "mưa"; "nắng"; "name";
      "your name"; "who are you"; "what are you"; "tên"; "tên bạn";
      "bạn là ai"; "bạn là gì"; "calculate"; "math"; "solve";
      "equation"; "tính"; "toán"; "giải"; "news"; "current events";
      "politics"; "sports"; "tin tức"; "thể thao"; "chính trị";
      "recipe"; "cooking"; "food"; "restaurant"; "công thức"; "nấu ăn";
      "món ăn"; "nhà hàng"; "translate"; "translation"; "dịch";
      "meaning"; "book"; "novel"; "read"; "sách"; "tiểu thuyết"; "đọc";
      "Tháng"; "Month"; "January"; "February"; "March"; "April"; "May";
      "June"; "July"; "August"; "September"; "October"; "November";
      "December"; "Jan"; "Feb"; "Mar"; "Apr"; "Jun"; "Jul"; "Aug";
      "Sep"; "Oct"; "Nov"; "Dec" ]%string.

(** The entries of [non_movie_keywords] that carry a capital letter:
    the month names, their abbreviations, [Month] and [Tháng]. *)
Definition capitalised_keywords : list pystr :=
  List.filter (existsb is_upper) non_movie_keywords.

(** [\s+] *)
Definition sp : regex := Plus true space.
(** [.*] *)
Definition any : regex := Star true Dot.

(** [movie_inquiry_patterns] *)
Definition movie_inquiry_patterns : list regex :=
  [ (* \b(tell\s+me\s+more\s+about|tell\s+me\s+about|what\s+is|what\'?s
         |who\s+is|who\'?s|describe|explain)\b *)
    seqs [b_;
          Group 1 (alts
            [seqs [s_ "tell"; sp; s_ "me"; sp; s_ "more"; sp; s_ "about"];
             seqs [s_ "tell"; sp; s_ "me"; sp; s_ "about"];
             seqs [s_ "what"; sp; s_ "is"];
             seqs [s_ "what"; Opt true (s_ "'"); s_ "s"];
             seqs [s_ "who"; sp; s_ "is"];
             seqs [s_ "who"; Opt true (s_ "'"); s_ "s"];
             s_ "describe";
             s_ "explain"]);
          b_];
    (* \b(about|info|information|details|detail)\b.*\b(movie|film|show|series|tv)\b *)
    seqs [b_; Group 1 (words ["about"; "info"; "information"; "details"; "detail"]%string);
          b_; any; b_;
          Group 2 (words ["movie"; "film"; "show"; "series"; "tv"]%string); b_];
    (* \b(movie|film|show|series|tv)\b.*\b(about|info|information|details)\b *)
    seqs [b_; Group 1 (words ["movie"; "film"; "show"; "series"; "tv"]%string);
          b_; any; b_;
          Group 2 (words ["about"; "info"; "information"; "details"]%string); b_];
    (* \b(find|search|look\s+for)\b.*\b(movie|film|show|series)\b *)
    seqs [b_; Group 1 (alts [s_ "find"; s_ "search"; seqs [s_ "look"; sp; s_ "for"]]);
          b_; any; b_;
          Group 2 (words ["movie"; "film"; "show"; "series"]%string); b_] ].

(** [movie_context_patterns] *)
Definition movie_context_patterns : list regex :=
  [ (* \b(best|top|good|great|popular|famous)\b.*\b(watch|see|view)\b *)
    seqs [b_; Group 1 (words ["best"; "top"; "good"; "great"; "popular"; "famous"]%string);
          b_; any; b_; Group 2 (words ["watch"; "see"; "view"]%string); b_];
    (* \b(what|which|any)\b.*\b(good|watch|see|recommend)\b *)
    seqs [b_; Group 1 (words ["what"; "which"; "any"]%string);
          b_; any; b_; Group 2 (words ["good"; "watch"; "see"; "recommend"]%string); b_];
    (* \bshow\s+me\b *)
    seqs [b_; s_ "show"; sp; s_ "me"; b_];
    (* \blooking\s+for\b *)
    seqs [b_; s_ "looking"; sp; s_ "for"; b_];
    (* \bfind\b.*\b(watch|see)\b *)
    seqs [b_; s_ "find"; b_; any; b_; Group 1 (words ["watch"; "see"]%string); b_] ].

Section WithUnicode.
Context (U : unicode_db).

(** [any(re.search(p, s) for p in patterns)] *)
Definition any_search (patterns : list regex) (s : pystr) : bool :=
  existsb (fun p => bool_decide (is_Some (search U p s))) patterns.

(** [is_movie_related(self, query)] *)
Definition is_movie_related (query : pystr) : bool :=
  let query_lower := lower U query in
  if any_in movie_keywords query_lower then true
  else if any_in non_movie_keywords query_lower then false
  else if any_search movie_inquiry_patterns query_lower then true
  else if any_search movie_context_patterns query_lower then true
  else if (length (split_ws U query) <=? 5)%nat
          && negb (any_in non_movie_keywords query_lower)
  then true
  else false.
End WithUnicode.

End QueryParserService.

(** ** JSON values and dictionaries *)

Module Json.

(** What [json.loads] returns.  A [dict] keeps its insertion order and
    has each key once. *)
#[local] Set Warnings "-register-all".
Inductive json : Type :=
| JNull
| JBool (b : bool)
| JInt (z : Z)
| JFloat (q : Q)
| JStr (s : pystr)
| JList (l : list json)
| JDict (d : list (pystr * json)).

Definition dict : Type := list (pystr * json).

(** [d.get(k)] *)
Fixpoint dict_get (k : pystr) (d : dict) : option json :=
  match d with
  | [] => None
  | (k', v) :: d' => if decide (k' = k) then Some v else dict_get k d'
  end.

(** [d[k] = v] *)
Fixpoint dict_set (k : pystr) (v : json) (d : dict) : dict :=
  match d with
  | [] => [(k, v)]
  | (k', v') :: d' =>
      if decide (k' = k) then (k, v) :: d' else (k', v') :: dict_set k v d'
  end.

(** [x.get(k, default)]: only a [dict] has [get] *)
Definition get (x : json) (k : pystr) (default : json) : res json :=
  match x with
  | JDict d => Ok (match dict_get k d with Some v => v | None => default end)
  | _ => Raise AttributeError
  end.

(** [x.items()]: only a [dict] has [items] *)
Definition items (x : json) : res dict :=
  match x with
  | JDict d => Ok d
  | _ => Raise AttributeError
  end.

(** [x is None] *)
Definition is_none (x : json) : bool :=
  match x with
  | JNull => true
  | _ => false
  end.

Definition as_str (x : json) : option pystr :=
  match x with
  | JStr s => Some s
  | _ => None
  end.

(** [sep.join(x)]: [x] must be an iterable of strings *)
Definition join_json (sep : pystr) (x : json) : res pystr :=
  match x with
  | JStr s => Ok (join sep (map (fun c => [c]) s))
  | JList l =>
      match mapM as_str l with
      | Some parts => Ok (join sep parts)
      | None => Raise TypeError
      end
  | JDict d => Ok (join sep (map fst d))
  | _ => Raise TypeError
  end.

End Json.

(** ** services/qdrant_service.py *)

Module QdrantService.
Import Re Json.

(** [country_patterns] of [parse_query_regex] *)
Definition country_patterns : list (regex * pystr) :=
  [ (* \b(?:phim\s+)?mỹ\b *)
    (seqs [b_; Opt true (seqs [s_ "phim"; Plus true space]); s_ "mỹ"; b_],
     lit "United States");
    (* \b(?:phim\s+)?việt\b *)
    (seqs [b_; Opt true (seqs [s_ "phim"; Plus true space]); s_ "việt"; b_],
     lit "Vietnam");
    (* \b(?:phim\s+)?hàn\b *)
    (seqs [b_; Opt true (seqs [s_ "phim"; Plus true space]); s_ "hàn"; b_],
     lit "South Korea");
    (* \b(?:american|usa|us)\b *)
    (seqs [b_; words ["american"; "usa"; "us"]%string; b_], lit "United States");
    (* \b(?:korean|korea)\b *)
    (seqs [b_; words ["korean"; "korea"]%string; b_], lit "South Korea");
    (* \b(?:vietnamese|vietnam)\b *)
    (seqs [b_; words ["vietnamese"; "vietnam"]%string; b_], lit "Vietnam");
    (* \b(?:japanese|japan)\b *)
    (seqs [b_; words ["japanese"; "japan"]%string; b_], lit "Japan");
    (* \b(?:chinese|china)\b *)
    (seqs [b_; words ["chinese"; "china"]%string; b_], lit "China") ].

(** [\b(?:movies?|phim)\b] *)
Definition movie_type_pattern : regex :=
  seqs [b_; Alt (seqs [s_ "movie"; Opt true (s_ "s")]) (s_ "phim"); b_].

(** [\b(?:tv\s*shows?|series)\b] *)
Definition tv_type_pattern : regex :=
  seqs [b_;
        Alt (seqs [s_ "tv"; Star true space; s_ "show"; Opt true (s_ "s")])
            (s_ "series");
        b_].

(** [(?:năm\s+)?(\d{4})] *)
Definition year_pattern : regex :=
  seqs [Opt true (seqs [s_ "năm"; Plus true space]); Group 1 (times 4 digit)].

(** [genre_patterns] of [parse_query_regex] *)
Definition genre_patterns : list (regex * pystr) :=
  [ (seqs [b_; words ["hành động"; "action"]%string; b_], lit "Action");
    (seqs [b_; words ["hài"; "comedy"]%string; b_], lit "Comedy");
    (seqs [b_; words ["kinh dị"; "horror"]%string; b_], lit "Horror");
    (seqs [b_; words ["tình cảm"; "romance"]%string; b_], lit "Romance");
    (seqs [b_; s_ "drama"; b_], lit "Drama");
    (seqs [b_; s_ "thriller"; b_], lit "Thriller") ].

(** [s.split(sep)] for a separator of any length > 0.
    [cur] is the field being read, reversed. *)
Fixpoint split_str_from (fuel : nat) (sep : pystr) (cur : pystr) (s : pystr)
  : list pystr :=
  match fuel with
  | O => [rev cur ++ s]
  | S fuel' =>
      match s with
      | [] => [rev cur]
      | c :: s' =>
          if startswith s sep
          then rev cur :: split_str_from fuel' sep [] (drop (length sep) s)
          else split_str_from fuel' sep (c :: cur) s'
      end
  end.

Definition split_str (sep : pystr) (s : pystr) : list pystr :=
  split_str_from (S (length s)) sep [] s.

(** [l[i]] *)
Definition index {A : Type} (l : list A) (i : nat) : res A :=
  match l !! i with
  | Some x => Ok x
  | None => Raise IndexError
  end.

Section WithUnicode.
Context (U : unicode_db).

(** The first table entry whose pattern is found in [s]
    ([for pattern, v in table: if re.search(pattern, s): ...; break]). *)
Fixpoint first_found (table : list (regex * pystr)) (s : pystr) : option pystr :=
  match table with
  | [] => None
  | (p, v) :: table' =>
      match search U p s with
      | Some _ => Some v
      | None => first_found table' s
      end
  end.

(** [parse_query_regex(self, query)] *)
Definition parse_query_regex (query : pystr) : dict :=
  let parsed : dict := [] in
  let parsed :=
    match first_found country_patterns (lower U query) with
    | Some country => dict_set (lit "country") (JStr country) parsed
    | None => parsed
    end in
  let parsed :=
    match search U movie_type_pattern (lower U query) with
    | Some _ => dict_set (lit "type") (JStr (lit "Movie")) parsed
    | None =>
        match search U tv_type_pattern (lower U query) with
        | Some _ => dict_set (lit "type") (JStr (lit "TV Show")) parsed
        | None => parsed
        end
    end in
  let parsed :=
    match search U year_pattern query with
    | Some year_match =>
        dict_set (lit "year")
                 (JInt (int_digits U (default [] (group 1 year_match)))) parsed
    | None => parsed
    end in
  let parsed :=
    match first_found genre_patterns (lower U query) with
    | Some genre => dict_set (lit "genre") (JStr genre) parsed
    | None => parsed
    end in
  parsed.

(** What the chat-completion call of the hosted model does: it raises,
    or it answers with the [message.content] of each of its choices. *)
Definition llm_reply : Type := res (list (option pystr)).

Context (json_loads : pystr → res json).

(** "Clean up response (remove markdown if present)" *)
Definition remove_markdown (llm_output : pystr) : res pystr :=
  (if str_in (lit "```json") llm_output
   then let* x := index (split_str (lit "```json") llm_output) 1 in
        let* y := index (split_str (lit "```") x) 0 in
        Ok (strip U y)
   else if str_in (lit "```") llm_output
   then let* x := index (split_str (lit "```") llm_output) 1 in
        Ok (strip U x)
   else Ok llm_output)%res.

(** The [try] block of [parse_query_with_llm]. *)
Definition llm_body (query : pystr) (reply : llm_reply) : res (json * dict) :=
  (let* choices := reply in
   let* content := index choices 0 in
   let* llm_output :=
     match content with
     | Some c => Ok (strip U c)
     | None => Raise AttributeError
     end in
   let* llm_output := remove_markdown llm_output in
   let* parsed := json_loads llm_output in
   let* corrected_query := get parsed (lit "corrected_query") (JStr query) in
   let* optimized_summary := get parsed (lit "optimized_summary") (JStr query) in
   let* filters := get parsed (lit "filters") (JDict []) in
   let* matched_fields := get parsed (lit "matched_fields") (JList []) in
   let* search_intent := get parsed (lit "search_intent") (JStr []) in
   let* logged := join_json (lit ", ") matched_fields in
   let* its := items filters in
   let filters := List.filter (fun kv => negb (is_none (snd kv))) its in
   Ok (optimized_summary, filters))%res.

(** [parse_query_with_llm(self, query)] *)
Definition parse_query_with_llm (query : pystr) (reply : llm_reply)
  : res (json * dict) :=
  try_except (llm_body query reply)
             (fun _ => Ok (JStr query, parse_query_regex query)).
End WithUnicode.

End QdrantService.

(** ** services/langchain_service.py: the steps of [get_recommendation] *)

Module LangchainService.
Import Re.

(** The payload of a point of the catalogue collection, with the keys
    [setup_qdrant_cloud] stores.  The genre, cast and country can be
    [None]; [p_year] is [None] when the point has no [year] key. *)
Record payload_t : Type := {
  p_title : pystr;
  p_description : pystr;
  p_genre : option pystr;
  p_year : option Z;
  p_type : pystr;
  p_rating : pystr;
  p_cast : option pystr;
  p_country : option pystr
}.

(** A scored point returned by the vector search; [payload] is [None]
    when the point has no (or an empty) payload.  A score is a finite
    float, read as the rational it denotes. *)
Record scored_point : Type := {
  payload : option payload_t;
  score : Q
}.

(** An entry of [context]. *)
Record item : Type := {
  title : pystr;
  description : pystr;
  genre : option pystr;
  year : option Z;
  type_ : pystr;
  rating : pystr;
  cast : option pystr;
  country : option pystr;
  item_score : Q
}.

(** The profile dictionary; a key that is missing reads as the default
    [get_recommendation] gives it.  [None : option user_profile] stands
    for a profile that is [None] or empty, both false in [if user_profile]. *)
Record user_profile : Type := {
  preferences : pystr;
  favorite_genres : list pystr;
  disliked_genres : list pystr;
  favorite_actors : list pystr;
  watch_style : pystr;
  mood_preference : pystr;
  recently_watched : list pystr;
  watching_with : pystr;
  time_available : pystr;
  language_preference : option pystr
}.

(** [x or ''] *)
Definition or_empty (x : option pystr) : pystr :=
  match x with
  | Some ((_ :: _) as s) => s
  | _ => []
  end.

(** The dictionary appended to [context] for a search result. *)
Definition item_of (p : payload_t) (s : Q) : item :=
  {| title := p_title p;
     description := p_description p;
     genre := p_genre p;
     year := p_year p;
     type_ := p_type p;
     rating := p_rating p;
     cast := p_cast p;
     country := p_country p;
     item_score := s |}.

(** [\*\*Title\*\*:\s*\*\*([^*]+)\*\*] *)
Definition title_bold_pattern : regex :=
  seqs [s_ "**Title**:"; Star true space; s_ "**";
        Group 1 (Plus true (Set_ true [CChar 42%N])); s_ "**"].

(** [\*\*Title\*\*:\s*([^\n*]+?)(?:\n|$)] *)
Definition title_plain_pattern : regex :=
  seqs [s_ "**Title**:"; Star true space;
        Group 1 (Plus false (Set_ true [CChar LF; CChar 42%N]));
        Alt (Str [LF]) EndOfString].

(** [\*\*Title\*\*:\s*\*?\*?([^*\n]+?)(?:\*\*|$)] *)
Definition title_line_pattern : regex :=
  seqs [s_ "**Title**:"; Star true space; Opt true (s_ "*"); Opt true (s_ "*");
        Group 1 (Plus false (Set_ true [CChar 42%N; CChar LF]));
        Alt (s_ "**") EndOfString].

(** [\d+\.\s*\*\*([^*]+)\*\*] *)
Definition numbered_title_pattern : regex :=
  seqs [Plus true digit; s_ "."; Star true space; s_ "**";
        Group 1 (Plus true (Set_ true [CChar 42%N])); s_ "**"].

(** [if x and len(x) > 2] *)
Definition long_enough (x : pystr) : bool := (2 <? length x)%nat.

Section WithUnicode.
Context (U : unicode_db).

(** Method 1: [**Title**: **Movie Title**] *)
Definition method1 (a : pystr) : list pystr :=
  map (fun t => lower U (strip U t)) (findall1 U title_bold_pattern a).

(** Method 2: [**Title**: Movie Title] *)
Definition method2 (a : pystr) : list pystr :=
  omap (fun t =>
          let clean_title := strip U (sub_empty U (s_ "**") t) in
          if long_enough clean_title then Some (lower U clean_title) else None)
       (findall1 U title_plain_pattern a).

(** Method 3: the lines that contain [**Title**:] *)
Definition method3 (a : pystr) : list pystr :=
  omap (fun line =>
          if str_in (lit "**Title**:") line
          then match search U title_line_pattern line with
               | Some title_match =>
                   let clean_title := strip U (default [] (group 1 title_match)) in
                   if long_enough clean_title
                   then Some (lower U clean_title) else None
               | None => None
               end
          else None)
       (split_char LF a).

(** Method 4: numbered lists, [1. **Title**] *)
Definition method4 (a : pystr) : list pystr :=
  map (fun t => lower U (strip U t)) (findall1 U numbered_title_pattern a).

(** The titles added to [excluded_titles] for one answer, in the order
    of the [add] calls. *)
Definition titles_of_answer (a : pystr) : list pystr :=
  method1 a ++ method2 a ++ method3 a ++ method4 a.

(** [excluded_titles] after the loop over [chat_history]. *)
Definition excluded_titles (chat_history : list (pystr * pystr)) : gset pystr :=
  list_to_set (concat (map (fun qa => titles_of_answer (snd qa)) chat_history)).

(** [context] after the loop over [search_results]: results without a
    payload and titles already recommended are skipped. *)
Fixpoint context_of (excluded : gset pystr) (search_results : list scored_point)
  : list item :=
  match search_results with
  | [] => []
  | result :: rest =>
      match payload result with
      | None => context_of excluded rest
      | Some p =>
          if bool_decide (lower U (p_title p) ∈ excluded)
          then context_of excluded rest
          else item_of p (score result) :: context_of excluded rest
      end
  end.

(** The lower-cased titles of a candidate list. *)
Definition titles (context : list item) : list pystr :=
  map (fun c => lower U (title c)) context.

(** [any(c["title"].lower() == t.lower() for c in context)] *)
Definition has_title (context : list item) (t : pystr) : bool :=
  existsb (fun c => bool_decide (lower U (title c) = lower U t)) context.

(** The loops over [additional_results] and [broader_results]: stop at
    five entries; skip results without a payload, titles already
    recommended and titles already in [context]. *)
Fixpoint backfill (excluded : gset pystr) (context : list item)
         (results : list scored_point) : list item :=
  match results with
  | [] => context
  | result :: rest =>
      if (5 <=? length context)%nat then context
      else
        match payload result with
        | None => backfill excluded context rest
        | Some p =>
            if bool_decide (lower U (p_title p) ∈ excluded)
            then backfill excluded context rest
            else if has_title context (p_title p)
            then backfill excluded context rest
            else backfill excluded (context ++ [item_of p (score result)]) rest
        end
  end.

(** [[g.lower() for g in gs if g]] *)
Definition cleaned (gs : list pystr) : list pystr :=
  omap (fun g => match g with [] => None | _ => Some (lower U g) end) gs.

(** [sum(1 for x in xs if x in s)] *)
Definition count_in (xs : list pystr) (s : pystr) : nat :=
  length (List.filter (fun x => str_in x s) xs).

Definition bool_q (b : bool) : Q := if b then 1%Q else 0%Q.

(** [country_match] of [comprehensive_match_score] *)
Definition country_match (language_prefs country_str : pystr) : bool :=
  match language_prefs with
  | [] => false
  | _ =>
      existsb (fun country =>
                 str_in (strip U country) country_str
                 || str_in country_str (strip U country))
              (List.filter (fun country =>
                              match strip U country with [] => false | _ => true end)
                           (split_char 44%N language_prefs))
  end.


(** [comprehensive_match_score(item)]: the tuple, with its booleans
    read as 0 and 1, which is how Python compares them with numbers. *)
Definition comprehensive_match_score
           (favorite_genres favorite_actors : list pystr) (language_prefs : pystr)
           (c : item) : list Q :=
  let genre_str := lower U (or_empty (genre c)) in
  let cast_str := lower U (or_empty (cast c)) in
  let country_str := lower U (or_empty (country c)) in
  let genre_matches := count_in favorite_genres genre_str in
  let actor_matches := count_in favorite_actors cast_str in
  [ bool_q (0 <? genre_matches)%nat;
    inject_Z (Z.of_nat genre_matches);
    bool_q (0 <? actor_matches)%nat;
    inject_Z (Z.of_nat actor_matches);
    bool_q (country_match language_prefs country_str);
    item_score c ].
End WithUnicode.

(** [a < b] on tuples of numbers: the first place where they differ decides. *)
Fixpoint tuple_ltb (a b : list Q) : bool :=
  match a, b with
  | [], [] => false
  | [], _ :: _ => true
  | _ :: _, [] => false
  | x :: a', y :: b' => if Qeq_bool x y then tuple_ltb a' b' else Qle_bool x y
  end.

(** [a == b] on tuples of numbers *)
Fixpoint tuple_eqb (a b : list Q) : bool :=
  match a, b with
  | [], [] => true
  | x :: a', y :: b' => Qeq_bool x y && tuple_eqb a' b'
  | _, _ => false
  end.

Section Sort.
Context {A : Type} (key : A → list Q).

(** [l.sort(key=key, reverse=True)] is the stable sort into
    non-increasing key order; below it is written as an insertion
    sort, which is stable. *)
Fixpoint insert_desc (x : A) (l : list A) : list A :=
  match l with
  | [] => [x]
  | y :: l' =>
      if tuple_ltb (key x) (key y) then y :: insert_desc x l' else x :: l
  end.

Fixpoint sort_desc (l : list A) : list A :=
  match l with
  | [] => []
  | x :: l' => insert_desc x (sort_desc l')
  end.


End Sort.

Section WithUnicode.
Context (U : unicode_db).

(** "Filter out disliked genres": the list comprehension, which is
    run only when [disliked_genres] is not empty. *)
Definition without_disliked (disliked_genres : list pystr) (context : list item)
  : list item :=
  match disliked_genres with
  | [] => context
  | _ =>
      List.filter
        (fun c => negb (existsb
                          (fun disliked =>
                             str_in disliked (lower U (or_empty (genre c))))
                          disliked_genres))
        context
  end.

(** "Post-filter and boost results by user profile": the [context]
    left by the [if user_profile:] block. *)
Definition rerank (profile : option user_profile) (context : list item)
  : list item :=
  match profile with
  | None => context
  | Some p =>
      let favorite_genres := cleaned U (favorite_genres p) in
      let disliked_genres := cleaned U (disliked_genres p) in
      let favorite_actors := cleaned U (favorite_actors p) in
      let language_prefs := lower U (or_empty (language_preference p)) in
      let context := without_disliked disliked_genres context in
      sort_desc
        (comprehensive_match_score U favorite_genres favorite_actors language_prefs)
        context
  end.
End WithUnicode.

End LangchainService.

(** ** services/response_templates.py *)

Module ResponseTemplates.
Import Re LangchainService.

(** [class ResponseType(Enum)] *)
Inductive ResponseType : Type :=
| MOVIE_RECOMMENDATION
| TV_SHOW_RECOMMENDATION
| SIMILAR_CONTENT
| GENRE_FILTER
| DETAILED_INFO
| TRENDING
| FOLLOW_UP_REFERENCE
| GENERAL_CHAT.

(** [response_type.value] *)
Definition value (t : ResponseType) : pystr :=
  match t with
  | MOVIE_RECOMMENDATION => lit "movie_recommendation"
  | TV_SHOW_RECOMMENDATION => lit "tv_show_recommendation"
  | SIMILAR_CONTENT => lit "similar_content"
  | GENRE_FILTER => lit "genre_filter"
  | DETAILED_INFO => lit "detailed_info"
  | TRENDING => lit "trending"
  | FOLLOW_UP_REFERENCE => lit "follow_up_reference"
  | GENERAL_CHAT => lit "general_chat"
  end.

(** [follow_up_patterns] *)
Definition follow_up_patterns : list pystr :=
  map lit
    [ "how many"; "bao nhiêu"; "đã đề cập"; "đã nói"; "ở trên"; "above";
      "those"; "these"; "them"; "it"; "that one"; "which one";
      "the movies"; "the films"; "the shows"; "phim nào"; "cái nào" ]%string.

Definition detail_patterns : list pystr :=
  map lit
    [ "details"; "tell me about"; "tell me more about movie/tv-show"; "what is";
      "information about"; "info about"; "more about" ]%string.

(** [\b(\d+)\s*(?:movies?|films?|shows?|recommendations?)\b] *)
Definition number_pattern : regex :=
  seqs [b_; Group 1 (Plus true digit); Star true space;
        alts [seqs [s_ "movie"; Opt true (s_ "s")];
              seqs [s_ "film"; Opt true (s_ "s")];
              seqs [s_ "show"; Opt true (s_ "s")];
              seqs [s_ "recommendation"; Opt true (s_ "s")]];
        b_].

(** The instruction added when the query names no number. *)
Definition exactly_5_instruction : pystr :=
  [LF] ++ lit "**CRITICAL**: The user did NOT specify a number. You MUST provide EXACTLY 5 recommendations. This is mandatory and not optional." ++ [LF].

(** The instruction added when the query asks for [n]. *)
Definition exactly_n_instruction (n : Z) : pystr :=
  [LF] ++ lit "**CRITICAL**: The user requested " ++ str_of_Z n
       ++ lit " recommendations. You MUST provide EXACTLY " ++ str_of_Z n
       ++ lit " recommendations." ++ [LF].

Definition closing_instruction : pystr :=
  lit "Please provide a helpful, engaging response following the guidelines above."
  ++ lit " If the user is asking about previous recommendations (e.g., 'how many', 'which ones', 'the movies above'), refer to the Previous Conversation section to answer accurately.".

(** How an f-string shows a value that can be [None]. *)
Definition show_opt (x : option pystr) : pystr :=
  match x with
  | Some s => s
  | None => lit "None"
  end.

(** One entry of [format_context_for_prompt]. *)
Definition format_item (i : nat) (c : item) : pystr :=
  str_of_N (N.of_nat i) ++ lit ". **" ++ title c ++ lit "** ("
    ++ match year c with Some y => str_of_Z y | None => [] end ++ lit ")" ++ [LF]
    ++ lit "   Type: " ++ type_ c ++ [LF]
    ++ lit "   Genre: " ++ show_opt (genre c) ++ [LF]
    ++ lit "   Rating: " ++ rating c ++ [LF]
    ++ lit "   Description: " ++ description c ++ [LF; LF].

(** [format_context_for_prompt(context)] *)
Definition format_context_for_prompt (context : list item) : pystr :=
  match context with
  | [] => lit "No specific context available."
  | _ =>
      lit "**Available Content:**" ++ [LF; LF]
      ++ concat (imap (fun i c => format_item (S i) c) context)
  end.

(** One exchange of the "Previous Conversation" block. *)
Definition format_turn (qa : pystr * pystr) : pystr :=
  let '(q, a) := qa in
  lit "User: " ++ q ++ [LF]
  ++ (if (length a <=? 500)%nat
      then lit "Assistant: " ++ a ++ [LF; LF]
      else lit "Assistant: " ++ slice_to 400 a ++ lit "...[continued]..."
           ++ slice_from (-100) a ++ [LF; LF]).

Section WithUnicode.
Context (U : unicode_db).

(** [detect_response_type(query, context)] *)
Definition detect_response_type (query : pystr) (context : list item)
  : ResponseType :=
  let query_lower := lower U query in
  if any_in follow_up_patterns query_lower then FOLLOW_UP_REFERENCE
  else if str_in (lit "similar") query_lower || str_in (lit "like") query_lower
  then SIMILAR_CONTENT
  else if str_in (lit "trending") query_lower
          || str_in (lit "popular") query_lower
          || str_in (lit "hot") query_lower
  then TRENDING
  else if any_in detail_patterns query_lower then DETAILED_INFO
  else if str_in (lit "genre") query_lower
          || str_in (lit "filter") query_lower
          || str_in (lit "type of") query_lower
  then GENRE_FILTER
  else
    let types := map (fun c => lower U (type_ c)) context in
    if existsb (fun t => str_in (lit "tv") t || str_in (lit "series") t) types
    then TV_SHOW_RECOMMENDATION
    else if existsb (fun t => str_in (lit "movie") t) types
    then MOVIE_RECOMMENDATION
    else if any_in (map lit ["series"; "show"; "tv"; "episode"; "season"]%string)
                   query_lower
    then TV_SHOW_RECOMMENDATION
    else if any_in (map lit ["movie"; "film"]%string) query_lower
    then MOVIE_RECOMMENDATION
    else GENERAL_CHAT.

(** "Auto-detect response type if not provided" *)
Definition resolved (query : pystr) (context : list item)
           (response_type : option ResponseType) : ResponseType :=
  match response_type with
  | None => detect_response_type query context
  | Some t => t
  end.

(** The count instruction of [create_structured_prompt]; empty for
    the response types that get none.  [int(number_match.group(1))]
    raises when the digits are too many. *)
Definition count_instruction (query : pystr) (response_type : ResponseType)
  : res pystr :=
  match response_type with
  | MOVIE_RECOMMENDATION | TV_SHOW_RECOMMENDATION =>
      match search U number_pattern (lower U query) with
      | None => Ok exactly_5_instruction
      | Some number_match =>
          (let* requested_number := int U (default [] (group 1 number_match)) in
           Ok (exactly_n_instruction requested_number))%res
      end
  | _ => Ok []
  end.

(** The ['user'] entry of [create_structured_prompt(query, context,
    chat_history, response_type, user_profile, user_name)].  The
    ['system'] entry is [get_system_prompt(response_type, user_profile)],
    which reads neither the query nor the history.  The call raises
    what the count instruction raises. *)
Definition create_structured_prompt
           (query : pystr) (context : list item)
           (chat_history : list (pystr * pystr))
           (response_type : option ResponseType)
           (user_name : option pystr) : res pystr :=
  let response_type := resolved query context response_type in
  let user_prompt := format_context_for_prompt context in
  let user_prompt :=
    match or_empty user_name with
    | [] => user_prompt
    | name =>
        user_prompt ++ [LF] ++ lit "**USER NAME:** " ++ name
          ++ lit " (greet them naturally when appropriate)" ++ [LF]
    end in
  let user_prompt :=
    match chat_history with
    | [] => user_prompt
    | _ =>
        let history_str :=
          [LF] ++ lit "**Previous Conversation:**" ++ [LF]
          ++ lit "(Use this context to answer follow-up questions about previous recommendations)"
          ++ [LF; LF]
          ++ concat (map format_turn (slice_from (-5) chat_history)) in
        user_prompt ++ history_str
    end in
  let user_prompt :=
    user_prompt ++ [LF] ++ lit "**Current Question:**" ++ [LF] ++ query ++ [LF; LF] in
  let user_prompt :=
    user_prompt ++ lit "**Response Type:** " ++ value response_type ++ [LF] in
  (let* instruction := count_instruction query response_type in
   let user_prompt := user_prompt ++ instruction in
   Ok (user_prompt ++ closing_instruction))%res.
End WithUnicode.

End ResponseTemplates.

(** ** Sample data for the scenarios *)

Module Scenario.
Import LangchainService.

(** A catalogue entry with a title, a genre field and a score. *)
Definition entry (t g : string) (s : Q) : item :=
  {| title := lit t;
     description := [];
     genre := Some (lit g);
     year := None;
     type_ := lit "Movie";
     rating := [];
     cast := None;
     country := None;
     item_score := s |}.

(** A search result for a title. *)
Definition hit (t g : string) (s : Q) : scored_point :=
  {| payload := Some {| p_title := lit t;
                        p_description := [];
                        p_genre := Some (lit g);
                        p_year := None;
                        p_type := lit "Movie";
                        p_rating := [];
                        p_cast := None;
                        p_country := None |};
     score := s |}.

(** A profile with favourite and disliked genres only. *)
Definition profile (favorite disliked : list pystr) : user_profile :=
  {| preferences := [];
     favorite_genres := favorite;
     disliked_genres := disliked;
     favorite_actors := [];
     watch_style := [];
     mood_preference := [];
     recently_watched := [];
     watching_with := [];
     time_available := [];
     language_preference := None |}.

(** The twelve messages [(s, q1, a1)], ..., [(s, q12, a12)]. *)
Definition numbered (sid : pystr) (i : nat) : pystr * pystr * pystr :=
  (sid, lit "q" ++ str_of_N (N.of_nat i), lit "a" ++ str_of_N (N.of_nat i)).

Definition twelve (sid : pystr) : list (pystr * pystr * pystr) :=
  map (numbered sid) (seq 1 12).

(** An answer with two [**Title**:] lines. *)
Definition two_titles : pystr :=
  lit "**Title**: Inception" ++ [LF] ++ lit "**Title**: **The Matrix**".

(** An answer whose only title has two letters. *)
Definition short_title : pystr := lit "**Title**: It".

(** The query ['9' * n + ' movies']. *)
Definition nines_movies (n : nat) : pystr := repeat 57%N n ++ lit " movies".

End Scenario.

(* ===================================================================== *)
(** * Part II: properties *)
(* ===================================================================== *)

Section PyStrFacts.

Lemma slice_from_neg {A : Type} (n : Z) (l : list A) :
  0 < n → slice_from (- n) l = drop (length l - Z.to_nat n) l.
Proof.
  intros Hn. unfold slice_from.
  destruct (Z.ltb_spec (- n) 0) as [_|?]; [|lia].
  f_equal. lia.
Qed.

End PyStrFacts.

(** ** Conversation memory *)

Section MemoryFacts.
Import MemoryService Scenario.

(** One [add_message] appends the turn and keeps the newest
    [max_history] turns; it cannot raise. *)
Lemma add_message_spec (s q a : pystr) (m : ConversationMemory) :
  let l := default [] (conversations m !! s) ++ [(q, a)] in
  add_message s q a m =
    Ok {| conversations :=
            <[s := if Z.of_nat (length l) >? max_history m
                   then slice_from (- max_history m) l else l]> (conversations m);
          max_history := max_history m |}.
Proof.
  intros l. subst l. unfold add_message, getitem.
  destruct (conversations m !! s) as [h|] eqn:Hs; cbn [default from_option id app];
    repeat (rewrite ?Hs, ?lookup_insert_eq; cbn [res_bind]);
    destruct (_ >? _); cbn [res_bind];
    repeat (rewrite ?lookup_insert_eq; cbn [res_bind]);
    by rewrite ?insert_insert_eq.
Qed.

Lemma newest_snoc {A : Type} (n : nat) (l : list A) (x : A) :
  (0 < n)%nat → newest n (newest n l ++ [x]) = newest n (l ++ [x]).
Proof.
  intros Hn. unfold newest.
  rewrite !length_app, length_drop. simpl.
  destruct (decide (length l ≤ n)%nat) as [Hle|Hgt].
  - replace (length l - n)%nat with 0%nat by lia. rewrite drop_0. f_equal. lia.
  - rewrite (drop_app_le l [x]) by lia.
    rewrite (drop_app_le (drop _ l)) by (rewrite length_drop; lia).
    rewrite drop_drop. do 2 f_equal. lia.
Qed.

Lemma length_newest {A : Type} (n : nat) (l : list A) :
  length (newest n l) = Nat.min (length l) n.
Proof. unfold newest. rewrite length_drop. lia. Qed.

(** With a positive cap the truncation of [add_message] is [newest]. *)
Lemma truncate_newest {A : Type} (cap : Z) (l : list A) :
  0 < cap →
  (if Z.of_nat (length l) >? cap then slice_from (- cap) l else l)
  = newest (Z.to_nat cap) l.
Proof.
  intros Hcap. unfold newest.
  destruct (Z.gtb_spec (Z.of_nat (length l)) cap) as [Hgt|Hle].
  - by apply slice_from_neg.
  - replace (length l - Z.to_nat cap)%nat with 0%nat by lia. by rewrite drop_0.
Qed.

Lemma turns_of_app (sid : pystr) (xs ys : list (pystr * pystr * pystr)) :
  turns_of sid (xs ++ ys) = turns_of sid xs ++ turns_of sid ys.
Proof. unfold turns_of. apply omap_app. Qed.

Lemma turns_of_one (sid s q a : pystr) :
  turns_of sid [(s, q, a)] = if decide (s = sid) then [(q, a)] else [].
Proof. unfold turns_of. simpl. by destruct (decide (s = sid)). Qed.

(** The store after a run of [add_message] calls, started from a store
    that already holds the newest turns of the calls [prev]. *)
Lemma add_messages_newest (msgs prev : list (pystr * pystr * pystr))
      (m0 : ConversationMemory) :
  0 < max_history m0 →
  (∀ sid, default [] (conversations m0 !! sid)
          = newest (Z.to_nat (max_history m0)) (turns_of sid prev)) →
  ∃ m, add_messages msgs m0 = Ok m
       ∧ max_history m = max_history m0
       ∧ ∀ sid, default [] (conversations m !! sid)
                = newest (Z.to_nat (max_history m0)) (turns_of sid (prev ++ msgs)).
Proof.
  revert prev m0.
  induction msgs as [|[[s q] a] msgs IH]; intros prev m0 Hcap Hinv.
  - exists m0. rewrite app_nil_r. done.
  - simpl. rewrite add_message_spec. simpl.
    rewrite truncate_newest by done.
    set (m1 := {| conversations := _; max_history := _ |}).
    destruct (IH (prev ++ [(s, q, a)]) m1) as (m & Hrun & Hmax & Hh).
    + done.
    + intros sid. subst m1. cbn [conversations max_history].
      rewrite turns_of_app, turns_of_one.
      destruct (decide (s = sid)) as [->|Hne].
      * rewrite lookup_insert_eq. cbn [default from_option id].
        rewrite Hinv. apply newest_snoc. lia.
      * rewrite lookup_insert_ne by done.
        rewrite app_nil_r. apply Hinv.
    + exists m. rewrite <- app_assoc in Hh. done.
Qed.

Lemma add_messages_from_init (msgs : list (pystr * pystr * pystr)) :
  ∃ m, add_messages msgs get_memory_service = Ok m
       ∧ ∀ sid, default [] (conversations m !! sid)
                = newest 10 (turns_of sid msgs).
Proof.
  destruct (add_messages_newest msgs [] get_memory_service) as (m & Hrun & _ & Hh).
  - done.
  - intros sid. simpl. by rewrite lookup_empty.
  - exists m. split; [done|]. intros sid. apply Hh.
Qed.

(** C3. Whatever [add_message] calls are made on the service instance
    (cap 10), every session's history is the newest [min n 10] of the [n]
    turns sent to it, oldest first, so it never holds more than 10; after
    twelve messages to one session the history is messages 3 to 12. *)
Theorem add_message_keeps_newest_ten :
  (∀ msgs : list (pystr * pystr * pystr),
    ∃ m, add_messages msgs get_memory_service = Ok m
         ∧ ∀ sid, ∃ h,
             get_history sid m = Ok (h, m)
             ∧ (length h ≤ 10)%nat
             ∧ length h = Nat.min (length (turns_of sid msgs)) 10
             ∧ h = drop (length (turns_of sid msgs) - 10) (turns_of sid msgs))
  ∧ (∀ sid : pystr,
      ∃ m, add_messages (twelve sid) get_memory_service = Ok m
           ∧ get_history sid m
             = Ok (map (fun i => (lit "q" ++ str_of_N (N.of_nat i),
                                  lit "a" ++ str_of_N (N.of_nat i))) (seq 3 10), m)).
Proof.
  split.
  - intros msgs.
    destruct (add_messages_from_init msgs) as (m & Hrun & Hh).
    exists m. split; [done|]. intros sid.
    exists (newest 10 (turns_of sid msgs)).
    unfold get_history. rewrite Hh.
    repeat split.
    + rewrite length_newest. lia.
    + apply length_newest.
  - intros sid.
    destruct (add_messages_from_init (twelve sid)) as (m & Hrun & Hh).
    exists m. split; [done|].
    unfold get_history. rewrite Hh. do 2 f_equal.
    unfold twelve, turns_of, numbered. simpl.
    rewrite !decide_True by done. reflexivity.
Qed.

(** A call other than [add_message] never adds a session. *)
Lemma step_creates (c : call) (m m' : ConversationMemory) (sid : pystr) :
  step c m = Ok m' →
  conversations m !! sid = None →
  is_Some (conversations m' !! sid) →
  ∃ q a, c = AddMessage sid q a.
Proof.
  intros Hstep Hnone Hsome.
  destruct c as [s q a|s|s|s]; simpl in Hstep.
  - rewrite add_message_spec in Hstep. injection Hstep as <-. simpl in Hsome.
    destruct (decide (s = sid)) as [->|Hne]; [by eauto|].
    rewrite lookup_insert_ne in Hsome by done.
    rewrite Hnone in Hsome. by destruct Hsome.
  - injection Hstep as <-. rewrite Hnone in Hsome. by destruct Hsome.
  - unfold clear_session, delitem in Hstep.
    destruct (conversations m !! s) eqn:Hs; simpl in Hstep.
    + injection Hstep as <-. simpl in Hsome.
      destruct (decide (s = sid)) as [->|Hne].
      * rewrite lookup_delete_eq in Hsome. by destruct Hsome.
      * rewrite lookup_delete_ne in Hsome by done.
        rewrite Hnone in Hsome. by destruct Hsome.
    + injection Hstep as <-. rewrite Hnone in Hsome. by destruct Hsome.
  - unfold format_history_for_prompt in Hstep. simpl in Hstep.
    destruct (default [] (conversations m !! s)); simpl in Hstep;
      injection Hstep as <-; rewrite Hnone in Hsome; by destruct Hsome.
Qed.

(** C10. For a session id that is not in the store, [get_history]
    returns the empty list and leaves the store as it is, [clear_session]
    returns with the store unchanged, neither raises, and a call that
    makes the session appear is an [add_message] for it. *)
Theorem absent_session_untouched (m : ConversationMemory) (sid : pystr) :
  conversations m !! sid = None →
  get_history sid m = Ok ([], m)
  ∧ clear_session sid m = Ok m
  ∧ ∀ (c : call) (m' : ConversationMemory),
      step c m = Ok m' →
      is_Some (conversations m' !! sid) →
      ∃ q a, c = AddMessage sid q a.
Proof.
  intros Hnone. repeat split.
  - unfold get_history. by rewrite Hnone.
  - unfold clear_session. by rewrite Hnone.
  - intros c m' Hstep Hsome. by eapply step_creates.
Qed.

Lemma absent_session_untouched_witness :
  get_history (lit "nobody") (init 10) = Ok ([], init 10)
  ∧ clear_session (lit "nobody") (init 10) = Ok (init 10)
  ∧ ∀ (c : call) (m' : ConversationMemory),
      step c (init 10) = Ok m' →
      is_Some (conversations m' !! lit "nobody") →
      ∃ q a, c = AddMessage (lit "nobody") q a.
Proof. apply (absent_session_untouched (init 10) (lit "nobody")). reflexivity. Defined.

End MemoryFacts.

(** ** Strings *)

Section StringFacts.

Lemma startswith_app (p s : pystr) : startswith (p ++ s) p = true.
Proof.
  induction p as [|c p IH]; simpl; [done|].
  by rewrite N.eqb_refl, IH.
Qed.

Lemma startswith_inv (s p : pystr) :
  startswith s p = true → ∃ t, s = p ++ t.
Proof.
  revert s. induction p as [|c p IH]; intros s H.
  - by exists s.
  - destruct s as [|d s]; simpl in H; [done|].
    apply andb_true_iff in H as [Hc Hp].
    apply N.eqb_eq in Hc as ->.
    destruct (IH _ Hp) as [t ->]. by exists t.
Qed.

(** [p in a + p + b] *)
Lemma str_in_app (a p b : pystr) : str_in p (a ++ p ++ b) = true.
Proof.
  induction a as [|c a IH]; simpl.
  - destruct (p ++ b) eqn:E; simpl.
    + destruct p; [done|discriminate].
    + rewrite <- E. by rewrite startswith_app.
  - rewrite IH. apply orb_true_r.
Qed.

Lemma str_in_inv (p s : pystr) :
  str_in p s = true → ∃ a b, s = a ++ p ++ b.
Proof.
  induction s as [|c s IH]; simpl; intros H.
  - rewrite orb_false_r in H. destruct (startswith_inv _ _ H) as [t ->].
    by exists [], t.
  - apply orb_true_iff in H as [H|H].
    + destruct (startswith_inv _ _ H) as [t ->]. by exists [], t.
    + destruct (IH H) as (a & b & ->). by exists (c :: a), b.
Qed.

Lemma str_in_nil (s : pystr) : str_in [] s = true.
Proof. by destruct s. Qed.

(** Every code point of a substring occurs in the string. *)
Lemma str_in_elem (p s : pystr) (c : N) :
  str_in p s = true → c ∈ p → c ∈ s.
Proof.
  intros H Hc. destruct (str_in_inv _ _ H) as (a & b & ->).
  rewrite !elem_of_app. auto.
Qed.

Lemma any_in_true (ks : list pystr) (s : pystr) :
  any_in ks s = true ↔ ∃ k, k ∈ ks ∧ str_in k s = true.
Proof.
  unfold any_in. rewrite existsb_exists.
  split; intros (k & Hk & Hin); exists k; by rewrite ?list_elem_of_In in *.
Qed.

Lemma any_in_false (ks : list pystr) (s : pystr) (k : pystr) :
  any_in ks s = false → k ∈ ks → str_in k s = false.
Proof.
  intros Hf Hk. destruct (str_in k s) eqn:E; [|done].
  assert (any_in ks s = true) by (apply any_in_true; eauto). congruence.
Qed.

(** An ASCII string has no capital letter once lower-cased. *)
Lemma lower_ascii_no_upper (U : unicode_db) (s : pystr) (c : N) :
  forallb is_ascii s = true → c ∈ lower U s → is_upper c = false.
Proof.
  intros Hs Hc. unfold lower in Hc. rewrite Hs in Hc.
  apply list_elem_of_fmap in Hc as (d & -> & _).
  unfold ascii_lower, is_upper.
  destruct (N.leb_spec 65 d), (N.leb_spec d 90); simpl;
    rewrite andb_false_iff, !N.leb_gt; lia.
Qed.

(** A keyword written with a capital letter is never found in the
    lower-cased form of an ASCII string. *)
Lemma capitalised_not_in_lower (U : unicode_db) (kw s : pystr) :
  existsb is_upper kw = true →
  forallb is_ascii s = true →
  str_in kw (lower U s) = false.
Proof.
  intros Hkw Hs. destruct (str_in kw (lower U s)) eqn:E; [|done].
  apply existsb_exists in Hkw as (c & Hc & Hup).
  apply list_elem_of_In in Hc.
  pose proof (str_in_elem _ _ _ E Hc) as Hin.
  rewrite (lower_ascii_no_upper U s c Hs Hin) in Hup. done.
Qed.

End StringFacts.

(** ** Scope classifier *)

Section ScopeFacts.
Import QueryParserService.

(** C8. A query of at most five white-space separated tokens whose
    lower-cased text holds no off-topic keyword is in scope, whatever the
    earlier rules find; so are ["Inception"], the empty query and a
    query of blanks. *)
Theorem short_query_in_scope (U : unicode_db) :
  (∀ query : pystr,
      (length (split_ws U query) ≤ 5)%nat →
      any_in non_movie_keywords (lower U query) = false →
      is_movie_related U query = true)
  ∧ is_movie_related U (lit "Inception") = true
  ∧ is_movie_related U [] = true
  ∧ is_movie_related U (lit "   ") = true.
Proof.
  assert (Hgen : ∀ query : pystr,
             (length (split_ws U query) ≤ 5)%nat →
             any_in non_movie_keywords (lower U query) = false →
             is_movie_related U query = true).
  { intros query Hlen Hoff. unfold is_movie_related. cbv zeta.
    rewrite Hoff.
    destruct (any_in movie_keywords (lower U query)); [done|].
    destruct (any_search U movie_inquiry_patterns (lower U query)); [done|].
    destruct (any_search U movie_context_patterns (lower U query)); [done|].
    apply Nat.leb_le in Hlen. by rewrite Hlen. }
  split; [exact Hgen|].
  repeat split; apply Hgen; vm_compute; (lia || reflexivity).
Qed.

Lemma short_query_in_scope_witness :
  is_movie_related ascii_db (lit "2 Hearts") = true.
Proof.
  apply (proj1 (short_query_in_scope ascii_db) (lit "2 Hearts")).
  - vm_compute. lia.
  - vm_compute. reflexivity.
Defined.

(** A query that names a month but no movie word is accepted. *)
Lemma month_query_not_rejected :
  lit "January" ∈ non_movie_keywords
  ∧ str_in (lit "January") (lit "About January maybe") = true
  ∧ any_in movie_keywords (lower ascii_db (lit "About January maybe")) = false
  ∧ is_movie_related ascii_db (lit "About January maybe") = true.
Proof.
  repeat split; try (vm_compute; reflexivity).
  apply list_elem_of_In. vm_compute. tauto.
Qed.

(** C9 (as the code has it). Without a movie word in it, a query is
    rejected as soon as an entry of [non_movie_keywords] occurs, as
    written, in its lower-cased text.  The weather, math, news and recipe
    words are in lower case; the month names are written with a capital,
    so they never occur in the lower-cased form of an ASCII query, and
    ["About January maybe"] is in scope. *)
Theorem off_topic_keyword_rejects (U : unicode_db) :
  (∀ query kw : pystr,
      any_in movie_keywords (lower U query) = false →
      kw ∈ non_movie_keywords →
      str_in kw (lower U query) = true →
      is_movie_related U query = false)
  ∧ (∀ kw, kw ∈ map lit ["weather"; "math"; "news"; "recipe"]%string →
           kw ∈ non_movie_keywords ∧ existsb is_upper kw = false)
  ∧ (∀ kw, kw ∈ map lit ["Month"; "January"; "February"; "March"; "April";
                          "May"; "June"; "July"; "August"; "September";
                          "October"; "November"; "December"]%string →
           kw ∈ capitalised_keywords)
  ∧ (∀ query kw : pystr,
      forallb is_ascii query = true →
      kw ∈ capitalised_keywords →
      str_in kw (lower U query) = false)
  ∧ is_movie_related U (lit "About January maybe") = true
  ∧ is_movie_related U (lit "weather in January maybe") = false.
Proof.
  split; [|split; [|split; [|split; [|split]]]].
  - intros query kw Hmovie Hkw Hin. unfold is_movie_related. cbv zeta.
    rewrite Hmovie.
    assert (any_in non_movie_keywords (lower U query) = true) as ->; [|done].
    apply any_in_true. eauto.
  - intros kw Hkw. apply list_elem_of_In in Hkw. simpl in Hkw.
    rewrite list_elem_of_In.
    destruct Hkw as [<-|[<-|[<-|[<-|[]]]]]; (split; [vm_compute; tauto|reflexivity]).
  - intros kw Hkw. apply list_elem_of_In in Hkw. simpl in Hkw.
    rewrite list_elem_of_In.
    repeat (destruct Hkw as [<-|Hkw]; [vm_compute; tauto|]). destruct Hkw.
  - intros query kw Hascii Hkw.
    apply list_elem_of_In, filter_In in Hkw as [_ Hup].
    by apply capitalised_not_in_lower.
  - vm_compute. reflexivity.
  - vm_compute. reflexivity.
Qed.

Lemma off_topic_keyword_rejects_witness :
  is_movie_related ascii_db (lit "solve this equation") = false.
Proof.
  apply (proj1 (off_topic_keyword_rejects ascii_db)
               (lit "solve this equation") (lit "equation")).
  - vm_compute. reflexivity.
  - apply list_elem_of_In. vm_compute. tauto.
  - vm_compute. reflexivity.
Defined.

End ScopeFacts.

(** ** Query normalisation *)

Section NormalizerFacts.
Import Json QdrantService.

(** C4. Whenever the [try] block of [parse_query_with_llm] fails, the
    function returns the query as it was given together with the filters
    of [parse_query_regex]; it returns in every case, so no exception
    reaches the caller.  The block fails when the completion call raises,
    when there is no choice or no content, when [json.loads] rejects the
    text, and when the JSON value is not an object. *)
Theorem llm_failure_falls_back
        (U : unicode_db) (json_loads : pystr → res json)
        (query : pystr) (reply : llm_reply) :
  (∀ e, llm_body U json_loads query reply = Raise e →
        parse_query_with_llm U json_loads query reply
        = Ok (JStr query, parse_query_regex U query))
  ∧ (∃ r, parse_query_with_llm U json_loads query reply = Ok r)
  ∧ (∀ e, reply = Raise e → llm_body U json_loads query reply = Raise e)
  ∧ (reply = Ok [] → llm_body U json_loads query reply = Raise IndexError)
  ∧ (∀ rest, reply = Ok (None :: rest) →
             llm_body U json_loads query reply = Raise AttributeError)
  ∧ (∀ c rest text e,
        reply = Ok (Some c :: rest) →
        remove_markdown U (strip U c) = Ok text →
        json_loads text = Raise e →
        llm_body U json_loads query reply = Raise e)
  ∧ (∀ c rest text v,
        reply = Ok (Some c :: rest) →
        remove_markdown U (strip U c) = Ok text →
        json_loads text = Ok v →
        (∀ d, v ≠ JDict d) →
        llm_body U json_loads query reply = Raise AttributeError).
Proof.
  split; [|split; [|split; [|split; [|split; [|split]]]]].
  - intros e He. unfold parse_query_with_llm. by rewrite He.
  - unfold parse_query_with_llm.
    destruct (llm_body U json_loads query reply) as [r|e]; simpl; eauto.
  - intros e ->. reflexivity.
  - intros ->. reflexivity.
  - intros rest ->. reflexivity.
  - intros c rest text e -> Hclean Hjson. unfold llm_body. simpl.
    rewrite Hclean. simpl. by rewrite Hjson.
  - intros c rest text v -> Hclean Hjson Hobj. unfold llm_body. simpl.
    rewrite Hclean. simpl. rewrite Hjson. simpl.
    destruct v; try reflexivity. by destruct (Hobj d).
Qed.

Lemma llm_failure_falls_back_witness :
  parse_query_with_llm ascii_db (fun _ => Raise JSONDecodeError)
                       (lit "korean horror movies 2020") (Raise ServiceError)
  = Ok (JStr (lit "korean horror movies 2020"),
        [(lit "country", JStr (lit "South Korea"));
         (lit "type", JStr (lit "Movie"));
         (lit "year", JInt 2020);
         (lit "genre", JStr (lit "Horror"))]).
Proof.
  apply (proj1 (llm_failure_falls_back ascii_db (fun _ => Raise JSONDecodeError)
                  (lit "korean horror movies 2020") (Raise ServiceError))
               ServiceError).
  reflexivity.
Defined.

End NormalizerFacts.

(** ** Sorting by a tuple key *)

Section TupleOrder.
Import LangchainService.



Lemma tuple_eqb_refl (a : list Q) : tuple_eqb a a = true.
Proof.
  induction a as [|x a IH]; simpl; [done|].
  rewrite IH, andb_true_r. apply Qeq_bool_iff. reflexivity.
Qed.







End TupleOrder.

Section SortFacts.
Import LangchainService.
Context {A : Type} (key : A → list Q).

Lemma insert_desc_perm (x : A) (l : list A) :
  Permutation (insert_desc key x l) (x :: l).
Proof.
  induction l as [|y l IH]; simpl; [done|].
  destruct (tuple_ltb (key x) (key y)); [|done].
  rewrite IH. apply perm_swap.
Qed.

Lemma sort_desc_perm (l : list A) : Permutation (sort_desc key l) l.
Proof.
  induction l as [|x l IH]; simpl; [done|].
  rewrite insert_desc_perm. by constructor.
Qed.






End SortFacts.

(** ** Profile reranker *)

Section RerankFacts.
Import LangchainService Scenario.

Lemma elem_of_sort_desc {A : Type} (key : A → list Q) (l : list A) (c : A) :
  c ∈ sort_desc key l ↔ c ∈ l.
Proof. by rewrite (sort_desc_perm key l). Qed.

Lemma elem_of_cleaned (U : unicode_db) (gs : list pystr) (g : pystr) :
  g ∈ gs → g ≠ [] → lower U g ∈ cleaned U gs.
Proof.
  intros Hg Hne. unfold cleaned. apply list_elem_of_omap.
  exists g. split; [done|]. by destruct g.
Qed.

Lemma elem_of_without_disliked (U : unicode_db) (ds : list pystr)
      (context : list item) (c : item) :
  c ∈ without_disliked U ds context →
  c ∈ context ∧ ∀ d, d ∈ ds → str_in d (lower U (or_empty (genre c))) = false.
Proof.
  unfold without_disliked. destruct ds as [|d0 ds].
  - intros Hc. split; [done|]. intros d Hd. by apply elem_of_nil in Hd.
  - intros Hc. apply list_elem_of_In, filter_In in Hc as [Hc Hno].
    split; [by apply list_elem_of_In|].
    intros d Hd. apply negb_true_iff in Hno.
    destruct (str_in d (lower U (or_empty (genre c)))) eqn:E; [|done].
    assert (existsb (fun disliked => str_in disliked (lower U (or_empty (genre c))))
                    (d0 :: ds) = true) as Hex.
    { apply existsb_exists. exists d. by rewrite <- list_elem_of_In. }
    congruence.
Qed.

(** An empty entry of [disliked_genres] excludes nothing, although the
    empty string occurs in every genre field. *)
Lemma empty_dislike_excludes_nothing :
  [] ∈ disliked_genres (profile [] [[]])
  ∧ str_in (lower ascii_db [])
           (lower ascii_db (or_empty (genre (entry "A" "Drama" (9#10))))) = true
  ∧ entry "A" "Drama" (9#10)
      ∈ rerank ascii_db (Some (profile [] [[]])) [entry "A" "Drama" (9#10)].
Proof.
  repeat split.
  - apply list_elem_of_In. simpl. tauto.
  - apply list_elem_of_In. vm_compute. tauto.
Qed.

(** C1 (as the code has it). A candidate returned by [rerank] comes
    from the candidate list and its genre field contains, case apart, no
    non-empty entry of the profile's [disliked_genres]; what is returned
    is a rearrangement of the candidates left by that exclusion, so a
    disliked candidate is absent, not moved down. *)
Theorem rerank_excludes_disliked
        (U : unicode_db) (p : user_profile) (context : list item)
        (c : item) (d : pystr) :
  c ∈ rerank U (Some p) context →
  d ∈ disliked_genres p →
  d ≠ [] →
  str_in (lower U d) (lower U (or_empty (genre c))) = false
  ∧ c ∈ context
  ∧ Permutation (rerank U (Some p) context)
                (without_disliked U (cleaned U (disliked_genres p)) context).
Proof.
  intros Hc Hd Hne. unfold rerank in *. cbv zeta in *.
  apply elem_of_sort_desc, elem_of_without_disliked in Hc as [Hc Hno].
  repeat split.
  - apply Hno. by apply elem_of_cleaned.
  - done.
  - apply sort_desc_perm.
Qed.

Lemma rerank_excludes_disliked_witness :
  str_in (lower ascii_db (lit "Horror"))
         (lower ascii_db (or_empty (genre (entry "A" "Drama" (9#10))))) = false.
Proof.
  apply (rerank_excludes_disliked ascii_db (profile [] [lit "Horror"])
           [entry "C" "Horror Movies, Thrillers" (95#100); entry "A" "Drama" (9#10)]
           (entry "A" "Drama" (9#10)) (lit "Horror")).
  - apply list_elem_of_In. vm_compute. tauto.
  - apply list_elem_of_In. vm_compute. tauto.
  - vm_compute. discriminate.
Defined.


End RerankFacts.

(** ** History-aware exclusion filter *)

Section ExclusionFacts.
Import LangchainService Scenario.

Lemma elem_of_excluded_titles (U : unicode_db) (history : list (pystr * pystr))
      (x : pystr) :
  x ∈ excluded_titles U history
  ↔ ∃ q a, (q, a) ∈ history
           ∧ (x ∈ method1 U a ∨ x ∈ method2 U a ∨ x ∈ method3 U a ∨ x ∈ method4 U a).
Proof.
  unfold excluded_titles. rewrite elem_of_list_to_set, list_elem_of_In, in_concat.
  setoid_rewrite <- list_elem_of_In.
  split.
  - intros (l & Hl & Hx). apply list_elem_of_fmap in Hl as ([q a] & -> & Hqa).
    exists q, a. split; [done|]. simpl in Hx.
    unfold titles_of_answer in Hx. rewrite !elem_of_app in Hx. tauto.
  - intros (q & a & Hqa & Hx). exists (titles_of_answer U a). split.
    + apply list_elem_of_fmap. by exists (q, a).
    + unfold titles_of_answer. rewrite !elem_of_app. tauto.
Qed.

Lemma context_of_not_excluded (U : unicode_db) (excluded : gset pystr)
      (results : list scored_point) (c : item) :
  c ∈ context_of U excluded results → lower U (title c) ∉ excluded.
Proof.
  induction results as [|r results IH]; simpl.
  - intros H. by apply elem_of_nil in H.
  - destruct (payload r) as [p|]; [|done].
    case_bool_decide as Hex; [done|].
    intros [->|H]%elem_of_cons; [done|by apply IH].
Qed.

Lemma has_title_false (U : unicode_db) (context : list item) (t : pystr) :
  has_title U context t = false → lower U t ∉ titles U context.
Proof.
  intros Hf Hin. unfold titles in Hin.
  apply list_elem_of_fmap in Hin as (c & Hc & Hin).
  assert (has_title U context t = true); [|congruence].
  apply existsb_exists. exists c. split; [by apply list_elem_of_In|].
  by apply bool_decide_eq_true.
Qed.

Lemma backfill_not_excluded (U : unicode_db) (excluded : gset pystr)
      (results : list scored_point) (context : list item) (c : item) :
  c ∈ backfill U excluded context results →
  c ∈ context ∨ lower U (title c) ∉ excluded.
Proof.
  revert context. induction results as [|r results IH]; intros context;
    cbn [backfill].
  - auto.
  - destruct (5 <=? length context)%nat; [auto|].
    destruct (payload r) as [p|]; [|by apply IH].
    case_bool_decide as Hex; [by apply IH|].
    destruct (has_title U context (p_title p)); [by apply IH|].
    intros [H|H]%IH; [|by right].
    apply elem_of_app in H as [H|H]; [by left|].
    apply list_elem_of_singleton in H as ->. by right.
Qed.

Lemma backfill_no_duplicates (U : unicode_db) (excluded : gset pystr)
      (results : list scored_point) (context : list item) :
  NoDup (titles U context) → NoDup (titles U (backfill U excluded context results)).
Proof.
  revert context. induction results as [|r results IH]; intros context Hnd;
    cbn [backfill].
  - done.
  - destruct (5 <=? length context)%nat; [done|].
    destruct (payload r) as [p|]; [|by apply IH].
    case_bool_decide as Hex; [by apply IH|].
    destruct (has_title U context (p_title p)) eqn:Hhas; [by apply IH|].
    apply IH. unfold titles. rewrite map_app. simpl.
    apply NoDup_app. split; [done|]. split.
    + intros x Hx [->|H]%elem_of_cons.
      * by apply (has_title_false U context (p_title p) Hhas).
      * by apply elem_of_nil in H.
    + apply NoDup_singleton.
Qed.

(** The first loop keeps a title that the search returns twice. *)
Lemma duplicate_is_kept :
  context_of ascii_db ∅ [hit "Up" "Comedies" (9#10); hit "Up" "Comedies" (8#10)]
  = [entry "Up" "Comedies" (9#10); entry "Up" "Comedies" (8#10)].
Proof.
  simpl. rewrite !bool_decide_eq_false_2 by apply not_elem_of_empty. reflexivity.
Qed.

(** The passes draw nothing from an answer whose only title has two
    letters. *)
Lemma short_title_not_drawn : excluded_titles ascii_db [(lit "q", short_title)] = ∅.
Proof.
  unfold excluded_titles.
  assert (concat (map (fun qa => titles_of_answer ascii_db (snd qa))
                      [(lit "q", short_title)]) = []) as ->
      by (vm_compute; reflexivity).
  reflexivity.
Qed.

(** With the exclusion set of the two-title answer, the first loop drops
    ["Inception"] and keeps ["Up"]. *)
Lemma inception_is_dropped :
  context_of ascii_db (excluded_titles ascii_db [(lit "q", two_titles)])
             [hit "Inception" "Sci-Fi" (9#10); hit "Up" "Comedies" (8#10)]
  = [entry "Up" "Comedies" (8#10)].
Proof.
  cbn [context_of payload hit].
  rewrite bool_decide_eq_true_2, bool_decide_eq_false_2; [reflexivity| |].
  - intros (q & a & Hqa & Hx)%elem_of_excluded_titles.
    apply list_elem_of_singleton in Hqa. injection Hqa as _ ->.
    rewrite !list_elem_of_In in Hx. vm_compute in Hx.
    intuition discriminate.
  - apply elem_of_excluded_titles. exists (lit "q"), two_titles.
    split; [apply list_elem_of_singleton; reflexivity|].
    rewrite !list_elem_of_In. vm_compute. tauto.
Qed.

(** With the same exclusion set, the merge loop skips ["UP"], which is
    in the list already, and the excluded ["The Matrix"], and adds
    ["Soul"]. *)
Lemma merge_skips_excluded_and_duplicate :
  backfill ascii_db (excluded_titles ascii_db [(lit "q", two_titles)])
           [entry "Up" "Comedies" (8#10)]
           [hit "UP" "Comedies" (7#10); hit "The Matrix" "Sci-Fi" (6#10);
            hit "Soul" "Comedies" (5#10)]
  = [entry "Up" "Comedies" (8#10); entry "Soul" "Comedies" (5#10)].
Proof. vm_compute. reflexivity. Qed.

(** The first loop keeps a title that the search returns twice; and for
    the history whose answer is [**Title**: It] the exclusion set is
    empty, so the first loop keeps the candidate ["It"] that the history
    recommended. *)
Lemma first_loop_keeps_duplicate_and_missed_title :
  context_of ascii_db ∅ [hit "Up" "Comedies" (9#10); hit "Up" "Comedies" (8#10)]
  = [entry "Up" "Comedies" (9#10); entry "Up" "Comedies" (8#10)]
  ∧ ¬ NoDup (titles ascii_db
               (context_of ascii_db ∅
                  [hit "Up" "Comedies" (9#10); hit "Up" "Comedies" (8#10)]))
  ∧ excluded_titles ascii_db [(lit "q", short_title)] = ∅
  ∧ context_of ascii_db (excluded_titles ascii_db [(lit "q", short_title)])
               [hit "It" "Horror" (9#10)]
    = [entry "It" "Horror" (9#10)].
Proof.
  split; [exact duplicate_is_kept|]. split; [|split].
  - rewrite duplicate_is_kept. intros Hnd.
    apply NoDup_cons in Hnd as [Hnot _]. apply Hnot. constructor.
  - exact short_title_not_drawn.
  - rewrite short_title_not_drawn. cbn [context_of payload hit].
    rewrite bool_decide_eq_false_2 by apply not_elem_of_empty. reflexivity.
Qed.

(** C7 (as the code has it). The candidate list built from the search
    results holds no candidate whose lower-cased title is in the
    exclusion set; with the exclusion set of a history, it holds no
    candidate whose lower-cased title one of the four passes drew from
    an answer of that history.  The loops that merge further results add
    no excluded title either and skip a title that, case apart, is
    already in the list: they keep a duplicate-free list
    duplicate-free. *)
Theorem filter_drops_excluded
        (U : unicode_db) (excluded : gset pystr) (results : list scored_point)
        (context : list item) :
  (∀ c, c ∈ context_of U excluded results → lower U (title c) ∉ excluded)
  ∧ (∀ history q a x c,
        (q, a) ∈ history →
        x ∈ method1 U a ∨ x ∈ method2 U a ∨ x ∈ method3 U a ∨ x ∈ method4 U a →
        c ∈ context_of U (excluded_titles U history) results →
        lower U (title c) ≠ x)
  ∧ (∀ c, c ∈ backfill U excluded context results →
          c ∈ context ∨ lower U (title c) ∉ excluded)
  ∧ (NoDup (titles U context) →
     NoDup (titles U (backfill U excluded context results))).
Proof.
  repeat split.
  - intros c. apply context_of_not_excluded.
  - intros history q a x c Hqa Hx Hc <-.
    apply (context_of_not_excluded U _ _ _ Hc).
    apply elem_of_excluded_titles. by exists q, a.
  - intros c. apply backfill_not_excluded.
  - apply backfill_no_duplicates.
Qed.

Lemma filter_drops_excluded_witness :
  context_of ascii_db (excluded_titles ascii_db [(lit "q", two_titles)])
             [hit "Inception" "Sci-Fi" (9#10); hit "Up" "Comedies" (8#10)]
  = [entry "Up" "Comedies" (8#10)]
  ∧ lower ascii_db (title (entry "Up" "Comedies" (8#10))) ≠ lit "inception"
  ∧ backfill ascii_db (excluded_titles ascii_db [(lit "q", two_titles)])
             [entry "Up" "Comedies" (8#10)]
             [hit "UP" "Comedies" (7#10); hit "The Matrix" "Sci-Fi" (6#10);
              hit "Soul" "Comedies" (5#10)]
    = [entry "Up" "Comedies" (8#10); entry "Soul" "Comedies" (5#10)]
  ∧ NoDup (titles ascii_db
             (backfill ascii_db (excluded_titles ascii_db [(lit "q", two_titles)])
                       [entry "Up" "Comedies" (8#10)]
                       [hit "UP" "Comedies" (7#10);
                        hit "The Matrix" "Sci-Fi" (6#10);
                        hit "Soul" "Comedies" (5#10)])).
Proof.
  split; [exact inception_is_dropped|].
  split; [|split; [exact merge_skips_excluded_and_duplicate|]].
  - apply (proj1 (proj2 (filter_drops_excluded
                           ascii_db ∅
                           [hit "Inception" "Sci-Fi" (9#10);
                            hit "Up" "Comedies" (8#10)] []))
                 [(lit "q", two_titles)] (lit "q") two_titles (lit "inception")
                 (entry "Up" "Comedies" (8#10))).
    + apply list_elem_of_singleton. reflexivity.
    + rewrite !list_elem_of_In. vm_compute. tauto.
    + rewrite inception_is_dropped. apply list_elem_of_singleton. reflexivity.
  - apply (filter_drops_excluded
             ascii_db (excluded_titles ascii_db [(lit "q", two_titles)])
             [hit "UP" "Comedies" (7#10); hit "The Matrix" "Sci-Fi" (6#10);
              hit "Soul" "Comedies" (5#10)]
             [entry "Up" "Comedies" (8#10)]).
    apply NoDup_singleton.
Defined.

End ExclusionFacts.

(** ** Titles drawn from the history *)

Section ExtractionFacts.
Import LangchainService Scenario.

Lemma long_enough_length (x : pystr) : long_enough x = true → (2 < length x)%nat.
Proof. unfold long_enough. apply Nat.ltb_lt. Qed.

(** The bold pass adds a two-letter title. *)
Lemma short_bold_title_is_kept :
  lit "up" ∈ excluded_titles ascii_db [(lit "q", lit "**Title**: **Up**")]
  ∧ (length (lit "up") ≤ 2)%nat.
Proof.
  split; [|vm_compute; lia].
  apply elem_of_excluded_titles. exists (lit "q"), (lit "**Title**: **Up**").
  split; [apply list_elem_of_singleton; reflexivity|].
  left. apply list_elem_of_In. vm_compute. tauto.
Qed.

(** C6 (as the code has it). For the history with the single answer
    [**Title**: Inception / **Title**: **The Matrix**] the exclusion set
    is {inception, the matrix}.  The set is the union of the four passes
    over every answer; every title in it is a trimmed, lower-cased
    capture; the plain and the per-line pass drop a capture that is not
    longer than two once trimmed. *)
Theorem excluded_titles_of_history (U : unicode_db) :
  excluded_titles U [(lit "q", two_titles)] = {[ lit "inception"; lit "the matrix" ]}
  ∧ (∀ history x,
        x ∈ excluded_titles U history
        ↔ ∃ q a, (q, a) ∈ history
                 ∧ (x ∈ method1 U a ∨ x ∈ method2 U a
                    ∨ x ∈ method3 U a ∨ x ∈ method4 U a))
  ∧ (∀ a x, x ∈ method1 U a ∨ x ∈ method4 U a → ∃ t, x = lower U (strip U t))
  ∧ (∀ a x, x ∈ method2 U a ∨ x ∈ method3 U a →
            ∃ t, x = lower U (strip U t) ∧ (2 < length (strip U t))%nat).
Proof.
  split; [|split; [|split]].
  - unfold excluded_titles.
    assert (concat (map (fun qa => titles_of_answer U (snd qa))
                        [(lit "q", two_titles)])
            = [lit "the matrix"; lit "inception"; lit "inception"; lit "the matrix"])
      as -> by (vm_compute; reflexivity).
    apply set_eq. intros x.
    rewrite elem_of_list_to_set, elem_of_union, !elem_of_singleton,
      !elem_of_cons, elem_of_nil.
    tauto.
  - apply elem_of_excluded_titles.
  - intros a x [Hx|Hx]; apply list_elem_of_fmap in Hx as (t & -> & _); by exists t.
  - intros a x [H|H]; apply list_elem_of_omap in H as (t & _ & H); cbv zeta in H.
    + destruct (long_enough (strip U (Re.sub_empty U (Re.s_ "**") t))) eqn:E;
        [|done].
      injection H as <-.
      eexists. split; [done|]. by apply long_enough_length.
    + destruct (str_in (lit "**Title**:") t); [|done].
      destruct (Re.search U title_line_pattern t) as [m|]; [|done].
      destruct (long_enough (strip U (default [] (Re.group 1 m)))) eqn:E; [|done].
      injection H as <-.
      eexists. split; [done|]. by apply long_enough_length.
Qed.

Lemma excluded_titles_of_history_witness :
  ∃ t, lit "inception" = lower ascii_db (strip ascii_db t)
       ∧ (2 < length (strip ascii_db t))%nat.
Proof.
  apply (proj2 (proj2 (proj2 (excluded_titles_of_history ascii_db)))
               two_titles (lit "inception")).
  left. apply list_elem_of_In. vm_compute. tauto.
Defined.

End ExtractionFacts.

(** ** Template prompt builder *)

Section PromptFacts.
Import LangchainService ResponseTemplates Scenario.

(** When the count instruction is built, the user prompt ends with it
    and the closing request; when it raises, so does the call. *)
Lemma prompt_shape (U : unicode_db) (query : pystr) (context : list item)
      (chat_history : list (pystr * pystr)) (response_type : option ResponseType)
      (user_name : option pystr) :
  ∃ before,
    create_structured_prompt U query context chat_history response_type user_name
    = res_bind (count_instruction U query (resolved U query context response_type))
               (fun instruction => Ok (before ++ instruction ++ closing_instruction)).
Proof.
  eexists. unfold create_structured_prompt. cbv zeta.
  destruct (count_instruction _ _ _) as [instruction|e]; cbn [res_bind];
    [|reflexivity].
  apply (f_equal Ok). symmetry. apply app_assoc.
Qed.

Lemma int_small (U : unicode_db) (s : pystr) :
  (length s ≤ max_str_digits)%nat → int U s = Ok (int_digits U s).
Proof.
  intros H. unfold int.
  destruct (Nat.ltb_spec max_str_digits (length s)); [lia|done].
Qed.

Lemma int_large (U : unicode_db) (s : pystr) :
  (max_str_digits < length s)%nat → int U s = Raise ValueError.
Proof.
  intros H. unfold int.
  destruct (Nat.ltb_spec max_str_digits (length s)); [done|lia].
Qed.

(** A query with a number in it is answered as a follow-up, and a
    "like" query as similar content: neither prompt carries a count
    instruction.  A movie query with a number of 4301 digits gets no
    prompt at all. *)
Lemma prompt_without_count_instruction :
  (Re.search ascii_db number_pattern
             (lower ascii_db (lit "recommend 3 movies with a twist"))
     ≫= Re.group 1) = Some (lit "3")
  ∧ detect_response_type ascii_db (lit "recommend 3 movies with a twist") []
    = FOLLOW_UP_REFERENCE
  ∧ (∃ prompt,
        create_structured_prompt ascii_db (lit "recommend 3 movies with a twist")
                                 [] [] None None = Ok prompt
        ∧ str_in (exactly_n_instruction 3) prompt = false)
  ∧ Re.search ascii_db number_pattern (lower ascii_db (lit "something like Inception"))
    = None
  ∧ detect_response_type ascii_db (lit "something like Inception") []
    = SIMILAR_CONTENT
  ∧ (∃ prompt,
        create_structured_prompt ascii_db (lit "something like Inception")
                                 [] [] None None = Ok prompt
        ∧ str_in exactly_5_instruction prompt = false)
  ∧ (Re.search ascii_db number_pattern (lower ascii_db (nines_movies 4301))
       ≫= Re.group 1) = Some (repeat 57%N 4301)
  ∧ detect_response_type ascii_db (nines_movies 4301) [] = MOVIE_RECOMMENDATION
  ∧ create_structured_prompt ascii_db (nines_movies 4301) [] [] None None
    = Raise ValueError.
Proof.
  repeat match goal with
         | |- _ ∧ _ => split
         | |- ∃ _, _ => eexists
         end; vm_compute; reflexivity.
Qed.

(** C2 (as the code has it). When the response type of the call,
    forced or detected, is a movie or a TV-show recommendation: if the
    number pattern finds nothing in the lower-cased query the call
    returns a user prompt that contains the instruction for exactly 5;
    if it finds the digits of [N] and they are at most 4300, the call
    returns a user prompt that contains the instruction for exactly [N];
    if they are more than 4300, [int] refuses them and the call raises
    [ValueError] in place of a prompt.  ["recommend 3 movies"] gets the
    instruction for exactly 3.  For the other response types the call
    returns a prompt to which no count instruction is added. *)
Theorem prompt_mandates_count
        (U : unicode_db) (query : pystr) (context : list item)
        (chat_history : list (pystr * pystr)) (response_type : option ResponseType)
        (user_name : option pystr) :
  let t := resolved U query context response_type in
  let call :=
    create_structured_prompt U query context chat_history response_type user_name in
  (t = MOVIE_RECOMMENDATION ∨ t = TV_SHOW_RECOMMENDATION →
     (Re.search U number_pattern (lower U query) = None →
      ∃ prompt, call = Ok prompt ∧ str_in exactly_5_instruction prompt = true)
     ∧ (∀ m, Re.search U number_pattern (lower U query) = Some m →
             (length (default [] (Re.group 1 m)) ≤ 4300)%nat →
             ∃ prompt,
               call = Ok prompt
               ∧ str_in (exactly_n_instruction
                           (int_digits U (default [] (Re.group 1 m)))) prompt = true)
     ∧ (∀ m, Re.search U number_pattern (lower U query) = Some m →
             (4300 < length (default [] (Re.group 1 m)))%nat →
             call = Raise ValueError))
  ∧ (t ≠ MOVIE_RECOMMENDATION → t ≠ TV_SHOW_RECOMMENDATION →
     count_instruction U query t = Ok []
     ∧ ∃ before, call = Ok (before ++ closing_instruction))
  ∧ (∃ prompt,
        create_structured_prompt U (lit "recommend 3 movies") [] [] None None
        = Ok prompt
        ∧ str_in (lit "The user requested 3 recommendations. You MUST provide EXACTLY 3 recommendations.")
                 prompt = true)
  ∧ (∃ prompt,
        create_structured_prompt U (lit "recommend some action movies")
                                 [] [] None None = Ok prompt
        ∧ str_in (lit "You MUST provide EXACTLY 5 recommendations.") prompt = true)
  ∧ create_structured_prompt U (nines_movies 4301) [] [] None None
    = Raise ValueError.
Proof.
  intros t call.
  destruct (prompt_shape U query context chat_history response_type user_name)
    as [before Hshape].
  fold t in Hshape. fold call in Hshape.
  split; [|split; [|split; [|split]]].
  - intros Ht. split; [|split].
    + intros Hnone.
      assert (count_instruction U query t = Ok exactly_5_instruction) as Hc.
      { unfold count_instruction. rewrite Hnone. by destruct Ht as [->| ->]. }
      rewrite Hc in Hshape. eexists. split; [exact Hshape|]. apply str_in_app.
    + intros m Hsome Hlen.
      assert (count_instruction U query t
              = Ok (exactly_n_instruction
                      (int_digits U (default [] (Re.group 1 m))))) as Hc.
      { unfold count_instruction. rewrite Hsome, int_small by exact Hlen.
        by destruct Ht as [->| ->]. }
      rewrite Hc in Hshape. eexists. split; [exact Hshape|]. apply str_in_app.
    + intros m Hsome Hlen.
      assert (count_instruction U query t = Raise ValueError) as Hc.
      { unfold count_instruction. rewrite Hsome, int_large by exact Hlen.
        by destruct Ht as [->| ->]. }
      rewrite Hc in Hshape. exact Hshape.
  - intros H1 H2.
    assert (count_instruction U query t = Ok []) as Hc.
    { unfold count_instruction. by destruct t. }
    split; [exact Hc|]. rewrite Hc in Hshape. cbn [res_bind] in Hshape.
    rewrite app_nil_l in Hshape. exists before. exact Hshape.
  - clear. eexists. split; vm_compute; reflexivity.
  - clear. eexists. split; vm_compute; reflexivity.
  - clear. vm_compute. reflexivity.
Qed.

Lemma prompt_mandates_count_witness :
  (∃ prompt,
      create_structured_prompt ascii_db (lit "recommend 3 movies") [] [] None None
      = Ok prompt
      ∧ str_in (exactly_n_instruction 3) prompt = true)
  ∧ create_structured_prompt ascii_db (nines_movies 4301) [] [] None None
    = Raise ValueError.
Proof.
  split.
  - refine (proj1 (proj2 (proj1 (prompt_mandates_count
                                   ascii_db (lit "recommend 3 movies")
                                   [] [] None None) _))
                  {| Re.m_before := lit "recommend ";
                     Re.m_text := lit "3 movies";
                     Re.m_after := [];
                     Re.m_last := Some 115%N;
                     Re.m_groups := [(1%nat, lit "3")] |} _ _).
    + left. vm_compute. reflexivity.
    + vm_compute. reflexivity.
    + vm_compute. lia.
  - refine (proj2 (proj2 (proj1 (prompt_mandates_count
                                   ascii_db (nines_movies 4301)
                                   [] [] None None) _))
                  {| Re.m_before := [];
                     Re.m_text := nines_movies 4301;
                     Re.m_after := [];
                     Re.m_last := Some 115%N;
                     Re.m_groups := [(1%nat, repeat 57%N 4301)] |} _ _).
    + left. vm_compute. reflexivity.
    + vm_compute. reflexivity.
    + apply Nat.ltb_lt. vm_compute. reflexivity.
Defined.

End PromptFacts.
